(** * cnvlib.reference: building a pooled copy-number reference

    A shallow embedding of [cnvlib/reference.py] and the properties of
    its reference-construction pipeline: sex-chromosome normalisation
    ([shift_sex_chroms]), pooling of the samples ([combine_probes]), the
    flat reference ([bed2probes]), the bad-probe filter and its report
    ([mask_bad_probes], [warn_bad_probes]) and the GC / repeat-mask
    statistics of a sequence ([calculate_gc_lo]).

    Conventions of the embedding.
    - A numpy [float64] is a value of [float]: an exact rational or
      [NaN].  Rounding is not modelled; a division by zero gives [NaN],
      and every comparison with [NaN] is false, as in numpy.  Where the
      rounding of sums decides a property, the estimators are evaluated
      in double precision as well ([Binary64]).
    - A [CopyNumArray] is a numpy structured array: a list of records
      with the five core fields, and a dtype that may also hold the
      extra keys [gc], [rmask] and [spread].
    - A Python exception is the left injection of [result]; the monad is
      ExtLib's [sum exn].
    - In-place updates ([arr['coverage'][mask] -= 1.0]) become functions
      returning the updated array.
    - The modules [cnvlib.core], [cnvlib.params], [cnvlib.ngfrills] and
      the loader [CNA.read] are parameters of the sections that use
      them; the class [CopyNumArray] and the estimators of
      [cnvlib.metrics] are modelled from the spec. *)

From Stdlib Require Import ZArith QArith Qcanon List String Ascii Bool Lia Lqa
  Permutation.
From Stdlib Require PrimFloat.
From ExtLib Require Import Structures.Monad Structures.MonadExc
  Data.Monads.EitherMonad.
Import ListNotations.
Import MonadNotation.

Local Open Scope nat_scope.
Local Open Scope string_scope.
Local Open Scope list_scope.
Local Open Scope monad_scope.

(* ================================================================== *)
(** ** Floating-point values *)

Module Float.

Inductive float : Type :=
| Fin (q : Qc)
| NaN.

Definition of_Z (z : Z) : float := Fin (Q2Qc (inject_Z z)).
Definition of_nat (n : nat) : float := of_Z (Z.of_nat n).

Definition lift2 (op : Qc -> Qc -> Qc) (a b : float) : float :=
  match a, b with
  | Fin x, Fin y => Fin (op x y)
  | _, _ => NaN
  end.

Definition add : float -> float -> float := lift2 Qcplus.
Definition sub : float -> float -> float := lift2 Qcminus.
Definition mul : float -> float -> float := lift2 Qcmult.

Definition div (a b : float) : float :=
  match a, b with
  | Fin x, Fin y => if Qc_eq_bool y 0 then NaN else Fin (x / y)%Qc
  | _, _ => NaN
  end.

Definition abs (a : float) : float :=
  match a with
  | Fin x => Fin (if Qclt_le_dec x 0 then - x else x)%Qc
  | NaN => NaN
  end.

Definition eqb (a b : float) : bool :=
  match a, b with
  | Fin x, Fin y => Qc_eq_bool x y
  | _, _ => false
  end.

Definition ltb (a b : float) : bool :=
  match a, b with
  | Fin x, Fin y => if Qclt_le_dec x y then true else false
  | _, _ => false
  end.

Definition gtb (a b : float) : bool := ltb b a.

(** Python's [max(a, b)]: the first argument unless the second is
    strictly greater. *)
Definition max (a b : float) : float := if gtb b a then b else a.

End Float.

Import Float.

Declare Scope fl_scope.
Delimit Scope fl_scope with fl.
Bind Scope fl_scope with float.
Infix "+" := Float.add : fl_scope.
Infix "-" := Float.sub : fl_scope.
Infix "*" := Float.mul : fl_scope.
Infix "/" := Float.div : fl_scope.
Infix "<?" := Float.ltb : fl_scope.
Infix ">?" := Float.gtb (at level 70) : fl_scope.

(** The literals of the source. *)
Definition f0 : float := Fin 0.
Definition f1 : float := Fin 1.
Definition fm1 : float := Fin (- (1))%Qc.

(* ================================================================== *)
(** ** Exceptions *)

Inductive exn : Type :=
| IndexError
| KeyError (key : string)
| ValueError
| RuntimeError (fname first : string).

Definition result (A : Type) : Type := sum exn A.

#[global] Instance Monad_result : Monad result := Monad_either exn.

Definition Ok {A} (a : A) : result A := inr a.
Definition Raise {A} (e : exn) : result A := inl e.

(* ================================================================== *)
(** ** Copy-number arrays *)

(** Modelled from the spec: the class [CopyNumArray] of
    [cnvlib/cnarray.py] is not among the sources.  A probe record has the
    fields chromosome, start, end, gene and coverage, and the optional
    fields spread, gc and rmask; the optional fields of a record are
    read only when the dtype of its array holds the key. *)
Record probe : Type := mkProbe {
  chromosome : string;
  start : Z;
  end_ : Z;
  gene : string;
  coverage : float;
  gc : float;
  rmask : float;
  spread : float
}.

(** Modelled from the spec: a profile is an ordered sequence of probe
    records under a sample id; [has_gc], [has_rmask] and [has_spread]
    tell which optional keys its dtype holds. *)
Record CopyNumArray : Type := mkCNA {
  sample_id : string;
  has_gc : bool;
  has_rmask : bool;
  has_spread : bool;
  data : list probe
}.

Abbreviation CNA := CopyNumArray.

Definition set_coverage (v : float) (p : probe) : probe :=
  mkProbe (chromosome p) (start p) (end_ p) (gene p) v
          (gc p) (rmask p) (spread p).

Definition set_data (rows : list probe) (a : CNA) : CNA :=
  mkCNA (sample_id a) (has_gc a) (has_rmask a) (has_spread a) rows.

(** [len(arr)] *)
Definition len (a : CNA) : nat := List.length (data a).

(** Column views: [arr.chromosome], [arr.start], ... and [arr['key']]. *)
Definition col {A} (f : probe -> A) (a : CNA) : list A := map f (data a).

(** [key in arr] for the extra keys. *)
Definition has_key (key : string) (a : CNA) : bool :=
  if String.eqb key "gc" then has_gc a
  else if String.eqb key "rmask" then has_rmask a
  else if String.eqb key "spread" then has_spread a
  else existsb (String.eqb key)
         ["chromosome"; "start"; "end"; "gene"; "coverage"].

(** [arr[key]] for a float column; a key outside the dtype raises. *)
Definition getitem (key : string) (a : CNA) : result (list float) :=
  if negb (has_key key a) then Raise (KeyError key)
  else if String.eqb key "coverage" then Ok (col coverage a)
  else if String.eqb key "gc" then Ok (col gc a)
  else if String.eqb key "rmask" then Ok (col rmask a)
  else if String.eqb key "spread" then Ok (col spread a)
  else Raise (KeyError key).

(** [column == value], elementwise. *)
Definition eq_mask (column : list string) (value : string) : list bool :=
  map (fun c => String.eqb c value) column.

(** [column != value], elementwise. *)
Definition ne_mask (column : list string) (value : string) : list bool :=
  map (fun c => negb (String.eqb c value)) column.

(** [arr['coverage'][mask] = f(arr['coverage'][mask])]: the masked
    in-place update of the coverage field.  The mask always comes from a
    column of the same array, so both have the same length. *)
Fixpoint update_coverage (f : float -> float) (mask : list bool)
    (rows : list probe) : list probe :=
  match mask, rows with
  | b :: mask', p :: rows' =>
      (if b then set_coverage (f (coverage p)) p else p)
        :: update_coverage f mask' rows'
  | _, _ => rows
  end.

(** [arr[mask]]: the rows selected by a boolean mask. *)
Fixpoint select {A} (mask : list bool) (rows : list A) : list A :=
  match mask, rows with
  | b :: mask', p :: rows' =>
      if b then p :: select mask' rows' else select mask' rows'
  | _, _ => []
  end.

(* ================================================================== *)
(** ** Sex-chromosome normalisation *)

(** [chr_y = ('chrY' if chr_x.startswith('chr') else 'Y')] *)
Definition chr_y_of (chr_x : string) : string :=
  if String.prefix "chr" chr_x then "chrY" else "Y".

(** [pset['coverage'][pset.chromosome == label] = f(...)]: the update of
    the coverage of the rows on one chromosome. *)
Definition coverage_where (label : string) (f : float -> float)
    (pset : CNA) : CNA :=
  set_data (update_coverage f (eq_mask (col chromosome pset) label)
              (data pset)) pset.

Section ShiftSexChroms.

(** [core.guess_xx(pset, chr_x=chr_x)]: the sex-inference predicate of
    [cnvlib.core], external to this module. *)
Variable guess_xx : CNA -> string -> bool.

Variable is_male_normal : bool.
Variables chr_x chr_y : string.

(** The closure [shift_sex_chroms] that [combine_probes] defines, for a
    male-normal reference in the first branch and for a female-normal
    reference in the second. *)
Definition shift_sex_chroms (pset : CNA) : CNA :=
  if is_male_normal then
    let is_xx := guess_xx pset chr_x in
    if is_xx then
      (* pset['coverage'][pset.chromosome == chr_x] -= 1.0 *)
      let pset := coverage_where chr_x (fun c => c - f1)%fl pset in
      (* pset['coverage'][pset.chromosome == chr_y] = -1.0 *)
      coverage_where chr_y (fun _ => fm1) pset
    else pset
  else
    let is_xx := guess_xx pset chr_x in
    if is_xx then
      (* pset['coverage'][pset.chromosome == chr_y] = -1.0 *)
      coverage_where chr_y (fun _ => fm1) pset
    else
      (* pset['coverage'][pset.chromosome == chr_x] += 1.0 *)
      coverage_where chr_x (fun c => c + f1)%fl pset.

End ShiftSexChroms.

(* ================================================================== *)
(** ** Robust estimators *)

Module Metrics.

(** [cnvlib/metrics.py], which holds [biweight_location] and
    [biweight_midvariance], is not among the sources.  The spec names
    the two estimators: the biweight location, "an iteratively
    reweighted M-estimator of central tendency using a fixed tuning
    constant", and the biweight midvariance, "the matching robust scale
    estimator"; both must be defined on a column of equal values.  The
    definitions of this module are the textbook ones: they start from
    the median, scale by the median absolute deviation, and bound the
    scale below by [epsilon]. *)

(** Insertion in a sorted list, for [median]. *)
Fixpoint insert (x : Qc) (l : list Qc) : list Qc :=
  match l with
  | [] => [x]
  | y :: l' => if Qclt_le_dec y x then y :: insert x l' else x :: l
  end.

Definition sort (l : list Qc) : list Qc := fold_right insert [] l.

(** The values of an array without [NaN], or [None]. *)
Fixpoint finite (a : list float) : option (list Qc) :=
  match a with
  | [] => Some []
  | Fin q :: a' => option_map (cons q) (finite a')
  | NaN :: _ => None
  end.

Definition sum (a : list float) : float := fold_right Float.add f0 a.

Definition sq (x : float) : float := (x * x)%fl.

(** Modelled from the spec: the median, as [numpy.median] gives it: the
    middle of the sorted values, the mean of the two middle ones for an
    even count; [NaN] for an empty array or one that holds a [NaN]. *)
Definition median (a : list float) : float :=
  match finite a with
  | None => NaN
  | Some qs =>
      let s := sort qs in
      let n := List.length s in
      match n with
      | O => NaN
      | _ =>
          if Nat.odd n then Fin (nth (n / 2) s 0%Qc)
          else ((Fin (nth (n / 2 - 1) s 0%Qc) + Fin (nth (n / 2) s 0%Qc))
                / of_Z 2)%fl
      end
  end.

(** Modelled from the spec: the median of the distances to the
    median. *)
Definition median_absolute_deviation (a : list float) : float :=
  let m := median a in
  median (map (fun x => Float.abs (x - m)%fl) a).

Section Biweight.

(** The tuning constant and the lower bound of the scale. *)
Variables c epsilon : Qc.

(** Modelled from the spec: the scale of the weights, the tuning
    constant times the median absolute deviation, and [epsilon] at
    least. *)
Definition scale (a : list float) : float :=
  Float.max (Fin c * median_absolute_deviation a)%fl (Fin epsilon).

(** The observations within one scale unit of the estimate. *)
Definition inliers (s t : float) (a : list float) : list float :=
  filter (fun x => Float.abs ((x - t) / s)%fl <? f1)%fl a.

Definition weight (u : float) : float := sq (f1 - sq u)%fl.

(** Modelled from the spec: one reweighting round from the estimate
    [t], the weighted mean of the inliers around [t]. *)
Definition reweight (s : float) (a : list float) (t : float) : float :=
  let kept := inliers s t a in
  (t + sum (map (fun x => (x - t) * weight ((x - t) / s)) kept)
       / sum (map (fun x => weight ((x - t) / s)) kept))%fl.

(** The number of reweighting rounds. *)
Variable rounds : nat.

(** Modelled from the spec: [metrics.biweight_location], the median
    reweighted [rounds] times. *)
Definition biweight_location (a : list float) : float :=
  Nat.iter rounds (reweight (scale a) a) (median a).

(** Modelled from the spec: [metrics.biweight_midvariance],
    [n * sum (x - m)^2 (1 - u^2)^4 / (sum (1 - u^2) (1 - 5 u^2))^2] over
    the inliers, with [u = (x - m) / scale]. *)
Definition biweight_midvariance (a : list float) : float :=
  let m := median a in
  let s := scale a in
  let kept := inliers s m a in
  let u x := ((x - m) / s)%fl in
  (of_nat (List.length a)
     * sum (map (fun x => sq (x - m) * sq (sq (f1 - sq (u x)))) kept)
   / sq (sum (map (fun x =>
                     (f1 - sq (u x)) * (f1 - of_Z 5 * sq (u x))) kept)))%fl.

End Biweight.

End Metrics.

(* ================================================================== *)
(** ** Pooling the samples *)

(** [numpy.vstack]: the arrays become the rows of a matrix; it raises on
    an empty list and on rows of different lengths. *)
Definition vstack (arrays : list (list float)) : result (list (list float)) :=
  match arrays with
  | [] => Raise ValueError
  | r :: rest =>
      if forallb (fun r' => Nat.eqb (List.length r') (List.length r)) rest
      then Ok arrays
      else Raise ValueError
  end.

Definition column (j : nat) (matrix : list (list float)) : list float :=
  map (fun row => nth j row NaN) matrix.

(** [numpy.apply_along_axis(f, 0, matrix)]: [f] on every column.  A
    matrix without columns, that of samples without probes, gives the
    empty array here. *)
Definition apply_along_axis0 (f : list float -> float)
    (matrix : list (list float)) : list float :=
  map (fun j => f (column j matrix)) (seq 0 (List.length (hd [] matrix))).

(** [(a == b).all()] on two columns of the same length. *)
Definition all_equal {A} (eqb : A -> A -> bool) (a b : list A) : bool :=
  forallb (fun xy => eqb (fst xy) (snd xy)) (combine a b).

(** The test of [combine_probes]: "Probe information should match across
    all files". *)
Definition same_probes (cnarr1 pset : CNA) : bool :=
  Nat.eqb (len cnarr1) (len pset)
  && all_equal String.eqb (col chromosome cnarr1) (col chromosome pset)
  && all_equal Z.eqb (col start cnarr1) (col start pset)
  && all_equal Z.eqb (col end_ cnarr1) (col end_ pset)
  && all_equal String.eqb (col gene cnarr1) (col gene pset).

(** [numpy.zeros(n)] *)
Definition zeros (n : nat) : list float := repeat f0 n.

(** Modelled from the spec: the constructor [CNA(sample_id, chromosome,
    start, end, gene, coverage, **kwargs)] of [cnvlib/cnarray.py], which
    is not among the sources.  The columns become the fields of the
    records, and the dtype holds the extra keys given. *)
Definition new_CNA (id : string) (chromosomes : list string)
    (starts ends : list Z) (genes : list string) (coverages : list float)
    (kw_spread kw_gc kw_rmask : option (list float)) : CNA :=
  let field kw i :=
    match kw with Some column => nth i column f0 | None => f0 end in
  let present (kw : option (list float)) :=
    match kw with Some _ => true | None => false end in
  mkCNA id (present kw_gc) (present kw_rmask) (present kw_spread)
    (map (fun i =>
            mkProbe (nth i chromosomes "") (nth i starts 0%Z)
                    (nth i ends 0%Z) (nth i genes "") (nth i coverages f0)
                    (field kw_gc i) (field kw_rmask i) (field kw_spread i))
         (seq 0 (List.length chromosomes))).

Section CombineProbes.

(** [CNA.read]: the loader of a sample file. *)
Variable read : string -> CNA.

(** [core.guess_chr_x] and [core.guess_xx] of [cnvlib.core]. *)
Variable guess_chr_x : CNA -> string.
Variable guess_xx : CNA -> string -> bool.

(** [metrics.biweight_location] and [metrics.biweight_midvariance]. *)
Variables biweight_location biweight_midvariance : list float -> float.

(** The loop over [filenames[1:]]. *)
Fixpoint load_samples (cnarr1 : CNA) (first : string)
    (shift_sex_chroms : CNA -> CNA) (fnames : list string)
    (all_coverages : list (list float)) : result (list (list float)) :=
  match fnames with
  | [] => Ok all_coverages
  | fname :: fnames' =>
      let pset := read fname in
      if negb (same_probes cnarr1 pset) then
        Raise (RuntimeError fname first)
      else
        let pset := shift_sex_chroms pset in
        load_samples cnarr1 first shift_sex_chroms fnames'
          (all_coverages ++ [col coverage pset])
  end.

(** The coverage rows of all the samples, normalised: the value of
    [all_coverages] before [numpy.vstack]. *)
Definition load_coverages (filenames : list string) (is_male_normal : bool)
  : result (CNA * list (list float)) :=
  match filenames with
  | [] => Raise IndexError
  | first :: fnames =>
      let cnarr1 := read first in
      let chr_x := guess_chr_x cnarr1 in
      let chr_y := chr_y_of chr_x in
      let shift := shift_sex_chroms guess_xx is_male_normal chr_x chr_y in
      let cnarr1 := shift cnarr1 in
      all_coverages <-
        load_samples cnarr1 first shift fnames [col coverage cnarr1] ;;
      ret (cnarr1, all_coverages)
  end.

Definition combine_probes (filenames : list string)
    (has_genome is_male_normal : bool) : result CNA :=
  loaded <- load_coverages filenames is_male_normal ;;
  let cnarr1 := fst loaded in
  all_coverages <- vstack (snd loaded) ;;
  let cvg_centers := apply_along_axis0 biweight_location all_coverages in
  let spreads := apply_along_axis0 biweight_midvariance all_coverages in
  let kw_gc :=
    if has_key "gc" cnarr1 then Some (col gc cnarr1)
    else if has_genome then Some (zeros (len cnarr1))
    else None in
  let kw_rmask := if has_genome then Some (zeros (len cnarr1)) else None in
  ret (new_CNA "reference" (col chromosome cnarr1) (col start cnarr1)
         (col end_ cnarr1) (col gene cnarr1) cvg_centers
         (Some spreads) kw_gc kw_rmask).

End CombineProbes.

(* ================================================================== *)
(** ** The flat reference *)

Fixpoint index_of (key : string) (keys : list string) : option nat :=
  match keys with
  | [] => None
  | k :: keys' =>
      if String.eqb key k then Some O else option_map S (index_of key keys')
  end.

(** Modelled from the spec: [CNA.from_rows(sample_id, rows, extra_keys)]
    of [cnvlib/cnarray.py], which is not among the sources.  Every row is
    a tuple of the five core values followed by one value for each extra
    key, in the order of [extra_keys]; the dtype holds these keys. *)
Definition from_rows (id : string)
    (rows : list (string * Z * Z * string * Z * list Z))
    (extra_keys : list string) : CNA :=
  let present key :=
    match index_of key extra_keys with Some _ => true | None => false end in
  let field key (extras : list Z) :=
    match index_of key extra_keys with
    | Some i => of_Z (nth i extras 0%Z)
    | None => f0
    end in
  mkCNA id (present "gc") (present "rmask") (present "spread")
    (map (fun row =>
            match row with
            | (chrom, start, end_, name, cvg, extras) =>
                mkProbe chrom start end_ name (of_Z cvg)
                  (field "gc" extras) (field "rmask" extras)
                  (field "spread" extras)
            end) rows).

Section Bed2Probes.

(** [ngfrills.parse_regions]: the intervals of a BED file, in order. *)
Variable parse_regions : string -> list (string * Z * Z * string).

(** [core.fbase]: the base name of a file. *)
Variable fbase : string -> string.

Definition bed2probes (bed_fname : string) : CNA :=
  let cn_rows :=
    map (fun region =>
           match region with
           | (chrom, start, end_, name) =>
               (chrom, start, end_, name, 0%Z, [0%Z; 0%Z; 0%Z])
           end) (parse_regions bed_fname) in
  from_rows (fbase bed_fname) cn_rows ["gc"; "rmask"; "spread"].

End Bed2Probes.

(* ================================================================== *)
(** ** Bad probes *)

(** [a | b] on two boolean arrays of the same length. *)
Fixpoint or_mask (a b : list bool) : list bool :=
  match a, b with
  | x :: a', y :: b' => (x || y) :: or_mask a' b'
  | _, _ => []
  end.

(** [sum(mask)]: the number of [True]. *)
Definition count_true (mask : list bool) : nat :=
  List.length (filter (fun b => b) mask).

(** [arr[mask]]: the sub-array of the selected rows.  Only the rows of a
    selection are read afterwards; the sample id and the dtype that the
    model keeps with them are not. *)
Definition select_rows (mask : list bool) (a : CNA) : CNA :=
  set_data (select mask (data a)) a.

(** [max(map(len, strings))] *)
Definition max_len (strings : list string) : nat :=
  fold_right Nat.max 0 (map String.length strings).

(** [s.ljust(width)] *)
Definition ljust (width : nat) (s : string) : string :=
  s ++ string_of_list_ascii (repeat " "%char (width - String.length s)).

(** The mark shown for a repeated gene: two spaces and a double quote. *)
Definition ditto : string :=
  String " " (String " " (String (ascii_of_nat 34) EmptyString)).

(** One printed line of the listing, before the numbers are formatted. *)
Record line : Type := mkLine {
  line_gene : string;
  line_label : string;
  line_coverage : float;
  line_spread : float;
  line_rmask : option float
}.

Record targets_warning : Type := mkTargetsWarning {
  fg_count : nat;
  fg_pct : float;
  fg_lines : list line
}.

Record antitargets_warning : Type := mkAntitargetsWarning {
  bg_count : nat;
  bg_pct : float
}.

(** What [warn_bad_probes] writes: the block of the targets, then the
    line of the antitargets, each only when it has a flagged probe. *)
Record warning : Type := mkWarning {
  targets : option targets_warning;
  antitargets : option antitargets_warning
}.

Section BadProbes.

(** [params.MIN_BIN_COVERAGE], [params.MAX_BIN_SPREAD] and
    [params.MAX_REPEAT_FRACTION] of [cnvlib.params]. *)
Variables MIN_BIN_COVERAGE MAX_BIN_SPREAD MAX_REPEAT_FRACTION : float.

(** [cnarray.row2label]: the text of a probe's region. *)
Variable row2label : probe -> string.

Definition mask_bad_probes (probes : CNA) : result (list bool) :=
  cvg <- getitem "coverage" probes ;;
  spr <- getitem "spread" probes ;;
  let mask :=
    or_mask (map (fun x => x <? MIN_BIN_COVERAGE)%fl cvg)
            (map (fun x => x >? MAX_BIN_SPREAD)%fl spr) in
  if has_key "rmask" probes then
    rm <- getitem "rmask" probes ;;
    ret (or_mask mask (map (fun x => x >? MAX_REPEAT_FRACTION)%fl rm))
  else ret mask.

(** The loop that prints the flagged targets: a gene equal to the one of
    the line before is shown as a ditto mark. *)
Fixpoint listing (with_rmask : bool) (gene_cols chrom_cols : nat)
    (last_gene : option string) (rows : list (string * probe))
  : list line :=
  match rows with
  | [] => []
  | (label, p) :: rows' =>
      let same :=
        match last_gene with
        | Some g => String.eqb (gene p) g
        | None => false
        end in
      let shown := if same then ditto else gene p in
      let last_gene' := if same then last_gene else Some (gene p) in
      mkLine (ljust gene_cols shown) (ljust chrom_cols label)
             (coverage p) (spread p)
             (if with_rmask then Some (rmask p) else None)
        :: listing with_rmask gene_cols chrom_cols last_gene' rows'
  end.

Definition warn_bad_probes (probes : CNA) : result warning :=
  mask <- mask_bad_probes probes ;;
  let bad_probes := select_rows mask probes in
  let fg_index := ne_mask (col gene bad_probes) "Background" in
  let fg_bad_probes := select_rows fg_index bad_probes in
  let fg :=
    if Nat.ltb 0 (len fg_bad_probes) then
      let bad_pct :=
        (of_nat (100 * len fg_bad_probes)
         / of_nat (count_true (ne_mask (col gene probes) "Background")))%fl in
      let gene_cols := max_len (col gene fg_bad_probes) in
      let labels := map row2label (data fg_bad_probes) in
      let chrom_cols := max_len labels in
      Some (mkTargetsWarning (len fg_bad_probes) bad_pct
              (listing (has_key "rmask" probes) gene_cols chrom_cols None
                 (combine labels (data fg_bad_probes))))
    else None in
  (* True - fg_index: the complement of the mask *)
  let bg_bad_probes := select_rows (map negb fg_index) bad_probes in
  let bg :=
    if Nat.ltb 0 (len bg_bad_probes) then
      let bad_pct :=
        (of_nat (100 * len bg_bad_probes)
         / of_nat (count_true (eq_mask (col gene probes) "Background")))%fl in
      Some (mkAntitargetsWarning (len bg_bad_probes) bad_pct)
    else None in
  ret (mkWarning fg bg).

End BadProbes.

(* ================================================================== *)
(** ** GC and repeat-masked content *)

(** [s.count(ch)] for a one-character [ch]. *)
Fixpoint count (ch : ascii) (s : string) : nat :=
  match s with
  | EmptyString => 0
  | String a s' => (if Ascii.eqb a ch then 1 else 0) + count ch s'
  end.

Definition calculate_gc_lo (subseq : string) : float * float :=
  let cnt_at_lo := count "a" subseq + count "t" subseq in
  let cnt_at_up := count "A" subseq + count "T" subseq in
  let cnt_gc_lo := count "g" subseq + count "c" subseq in
  let cnt_gc_up := count "G" subseq + count "C" subseq in
  let tot := of_nat (cnt_gc_up + cnt_gc_lo + cnt_at_up + cnt_at_lo) in
  if Float.eqb tot f0 then (f0, f0)
  else
    let frac_gc := (of_nat (cnt_gc_lo + cnt_gc_up) / tot)%fl in
    let frac_lo := (of_nat (cnt_at_lo + cnt_gc_lo) / tot)%fl in
    (frac_gc, frac_lo).

(* ================================================================== *)
(** ** The statements of the spec *)

(** The table of the sex-chromosome normaliser, for one row: what the
    row becomes for a reference convention and a sample sex. *)
Definition sex_table (is_male_normal is_xx : bool) (chr_x chr_y : string)
    (p : probe) : probe :=
  let on_x := String.eqb (chromosome p) chr_x in
  let on_y := String.eqb (chromosome p) chr_y in
  match is_male_normal, is_xx with
  | true, true =>
      if on_x then set_coverage (coverage p - f1)%fl p
      else if on_y then set_coverage fm1 p
      else p
  | true, false => p
  | false, true => if on_y then set_coverage fm1 p else p
  | false, false => if on_x then set_coverage (coverage p + f1)%fl p else p
  end.

(** Two profiles on the same probe grid: the same number of probes and
    the same chromosome, start, end and gene on every one. *)
Definition same_grid (a b : CNA) : Prop :=
  len a = len b
  /\ col chromosome a = col chromosome b
  /\ col start a = col start b
  /\ col end_ a = col end_ b
  /\ col gene a = col gene b.

(** The normaliser for a sample whose sex is given. *)
Definition normalise_as (is_xx is_male_normal : bool) (chr_x chr_y : string)
    (pset : CNA) : CNA :=
  shift_sex_chroms (fun _ _ => is_xx) is_male_normal chr_x chr_y pset.

(** The pooling as the spec words it: every sample is normalised with
    the sex and the chromosome labels inferred from the first sample. *)
Definition sex_from_first_sample (read : string -> CNA)
    (guess_chr_x : CNA -> string) (guess_xx : CNA -> string -> bool)
    (filenames : list string) (is_male_normal : bool) : Prop :=
  forall cnarr1 all_coverages,
    load_coverages read guess_chr_x guess_xx filenames is_male_normal
    = Ok (cnarr1, all_coverages) ->
    let first := read (hd "" filenames) in
    let chr_x := guess_chr_x first in
    let is_xx := guess_xx first chr_x in
    all_coverages
    = map (fun fname =>
             col coverage
               (normalise_as is_xx is_male_normal chr_x (chr_y_of chr_x)
                  (read fname)))
          filenames.

(** The number of characters of [s] that belong to [chars]. *)
Definition count_in (chars : list ascii) (s : string) : nat :=
  List.length
    (filter (fun a => existsb (Ascii.eqb a) chars) (list_ascii_of_string s)).

(** The natural number [n] as a rational. *)
Definition qnat (n : nat) : Qc := Q2Qc (inject_Z (Z.of_nat n)).

(** The row of a flat reference for an interval: neutral coverage, no
    spread, and zero in the reserved gc and rmask columns. *)
Definition flat_row (region : string * Z * Z * string) : probe :=
  match region with
  | (chrom, start, end_, name) => mkProbe chrom start end_ name f0 f0 f0 f0
  end.

(** The flat build as the spec words it, for a request flag [requested]:
    one row per interval in order, with coverage and spread 0.0 and the
    gene taken from the name, and the gc and rmask columns present if
    and only if requested. *)
Definition flat_build_as_specified (requested : bool)
    (regions : list (string * Z * Z * string)) (ref : CNA) : Prop :=
  col chromosome ref = map (fun r => fst (fst (fst r))) regions
  /\ col start ref = map (fun r => snd (fst (fst r))) regions
  /\ col end_ ref = map (fun r => snd (fst r)) regions
  /\ col gene ref = map snd regions
  /\ col coverage ref = map (fun _ => f0) regions
  /\ getitem "spread" ref = Ok (map (fun _ => f0) regions)
  /\ (has_key "gc" ref = true <-> requested = true)
  /\ (has_key "rmask" ref = true <-> requested = true).

(* ================================================================== *)
(** ** Example data *)

Module Examples.

Definition dec (n : Z) (d : positive) : float := Fin (Q2Qc (n # d)).

Definition row (chrom : string) (s e : Z) (name : string) (cvg : float)
  : probe :=
  mkProbe chrom s e name cvg f0 f0 f0.

(** A sample with one autosomal, one X and one Y probe, X at two
    copies. *)
Definition sample_xx : CNA :=
  mkCNA "female" false false false
    [ row "chr1" 0 100 "GENE1" (dec 1 10);
      row "chrX" 0 100 "GENEX" (dec 1 20);
      row "chrY" 0 100 "GENEY" (dec (-7) 1) ].

(** The same probes, X at one copy. *)
Definition sample_xy : CNA :=
  mkCNA "male" false false false
    [ row "chr1" 0 100 "GENE1" (dec (-1) 10);
      row "chrX" 0 100 "GENEX" (dec (-9) 10);
      row "chrY" 0 100 "GENEY" (dec (-1) 1) ].

(** A sample whose second probe starts elsewhere. *)
Definition sample_shifted : CNA :=
  mkCNA "shifted" false false false
    [ row "chr1" 0 100 "GENE1" (dec 0 1);
      row "chrX" 50 100 "GENEX" (dec 0 1);
      row "chrY" 0 100 "GENEY" (dec 0 1) ].

(** A stand-in for [core.guess_xx]: a sample is XX when the coverage of
    one of its X probes is above -1/2. *)
Definition guess_xx (pset : CNA) (chr_x : string) : bool :=
  existsb (fun p => String.eqb (chromosome p) chr_x
                    && (dec (-1) 2 <? coverage p)%fl) (data pset).

(** A stand-in for [core.guess_chr_x]: the label follows the first
    probe. *)
Definition guess_chr_x (cnarr : CNA) : string :=
  match data cnarr with
  | p :: _ => if String.prefix "chr" (chromosome p) then "chrX" else "X"
  | [] => "chrX"
  end.

(** A stand-in for [CNA.read]: three files. *)
Definition read (fname : string) : CNA :=
  if String.eqb fname "female.cnn" then sample_xx
  else if String.eqb fname "male.cnn" then sample_xy
  else sample_shifted.

(** A reference profile with the three extra columns: a good target, a
    target with too little coverage, two probes of one gene that spread
    too much, and a repetitive antitarget. *)
Definition reference : CNA :=
  mkCNA "reference" true true true
    [ mkProbe "chr1" 0 100 "GENE1" (dec 1 10) (dec 1 2) (dec 1 10) (dec 1 5);
      mkProbe "chr1" 200 300 "GENE2" (dec (-6) 1) (dec 1 2) f0 (dec 1 5);
      mkProbe "chr2" 0 100 "GENE3" f0 (dec 2 5) f0 (dec 3 2);
      mkProbe "chr2" 100 200 "GENE3" f0 (dec 2 5) f0 (dec 2 1);
      mkProbe "chr2" 500 900 "Background" f0 (dec 2 5) f1 (dec 1 10) ].

(** Thresholds in the place of [cnvlib.params]. *)
Definition min_coverage : float := dec (-5) 1.
Definition max_spread : float := dec 1 1.
Definition max_repeat : float := dec 99 100.

(** A stand-in for [cnarray.row2label]: the chromosome of the probe. *)
Definition row2label (p : probe) : string := chromosome p.

(** Tuning constants for the estimators. *)
Definition c_location : Qc := Q2Qc 6.
Definition c_midvariance : Qc := Q2Qc 9.
Definition epsilon : Qc := Q2Qc (1 # 10000).

(** Three samples of two probes, and the same rows in another order. *)
Definition three_rows : list (list float) :=
  [ [dec 0 1; dec 1 2]; [dec 1 10; dec 1 4]; [dec (-1) 20; dec 1 2] ].

Definition three_rows_permuted : list (list float) :=
  [ [dec 1 10; dec 1 4]; [dec (-1) 20; dec 1 2]; [dec 0 1; dec 1 2] ].

(** Two intervals of a BED file. *)
Definition two_regions : list (string * Z * Z * string) :=
  [ ("chr1", 100%Z, 200%Z, "GENE1"); ("chr2", 300%Z, 400%Z, "Background") ].

End Examples.

(* ================================================================== *)
(** ** Genome statistics of the probes *)

(** [gc_vals, rm_vals = zip] of the unpacked [gc_rm_vals]: the pairs
    taken apart into two sequences; without any pair there is nothing to
    assign, and the unpacking raises. *)
Definition unzip_pairs {A B} (pairs : list (A * B))
  : result (list A * list B) :=
  match pairs with
  | [] => Raise ValueError
  | _ :: _ => Ok (map fst pairs, map snd pairs)
  end.

Section GetFastaStats.

(** [ngfrills.fasta_extract_regions]: the subsequences of a FASTA file
    at the given regions. *)
Variable fasta_extract_regions :
  string -> list (string * Z * Z) -> list string.

(** [ngfrills.ensure_fasta_index] only builds the index file and is left
    out. *)
Definition get_fasta_stats (probes : CNA) (fa_fname : string)
  : result (list float * list float) :=
  let fa_coords :=
    combine (combine (col chromosome probes) (col start probes))
            (col end_ probes) in
  let gc_rm_vals :=
    map calculate_gc_lo (fasta_extract_regions fa_fname fa_coords) in
  unzip_pairs gc_rm_vals.

End GetFastaStats.

(* ================================================================== *)
(** ** Regions of a reference *)

(** [zip(cnarr['chromosome'], cnarr['start'], cnarr['end'])] *)
Definition _cna2coords (cnarr : CNA) : list (string * Z * Z) :=
  combine (combine (col chromosome cnarr) (col start cnarr))
          (col end_ cnarr).

(** [zip(cnarr['chromosome'], cnarr['start'], cnarr['end'],
    cnarr['gene'])] *)
Definition _cna2regions (cnarr : CNA) : list (string * Z * Z * string) :=
  combine (combine (combine (col chromosome cnarr) (col start cnarr))
                   (col end_ cnarr))
          (col gene cnarr).

Definition _ref_split_targets (ref_arr : CNA) : CNA * CNA :=
  let is_bg := eq_mask (col gene ref_arr) "Background" in
  (* True - is_bg: the complement of the mask *)
  let targets := select_rows (map negb is_bg) ref_arr in
  let antitargets := select_rows is_bg ref_arr in
  (targets, antitargets).

(** The rows that [reference2regions] extracts from one sub-array: with
    or without the gene names. *)
Inductive region_rows : Type :=
| Coords (rows : list (string * Z * Z))
| Regions (rows : list (string * Z * Z * string)).

(** [map(cna2rows, _ref_split_targets(reference))]: the rows of the
    targets, then those of the antitargets. *)
Definition reference2regions (reference : CNA) (coord_only : bool)
  : region_rows * region_rows :=
  let cna2rows :=
    if coord_only then (fun cnarr => Coords (_cna2coords cnarr))
    else (fun cnarr => Regions (_cna2regions cnarr)) in
  let split := _ref_split_targets reference in
  (cna2rows (fst split), cna2rows (snd split)).

(* ================================================================== *)
(** ** Notions used in the statements *)

(** The eight characters that [calculate_gc_lo] counts. *)
Definition bases : list ascii := ["a"; "t"; "g"; "c"; "A"; "T"; "G"; "C"]%char.

(** A number between 0 and 1. *)
Definition unit_fraction (x : float) : Prop :=
  exists q : Qc, x = Fin q /\ (0 <= q)%Qc /\ (q <= 1)%Qc.

(** The test of [mask_bad_probes] on one probe of a profile that has
    ([with_rmask]) or has not an rmask column. *)
Definition is_bad (mn mx mr : float) (with_rmask : bool) (p : probe) : bool :=
  (coverage p <? mn)%fl || (spread p >? mx)%fl
  || (with_rmask && (rmask p >? mr)%fl).

Definition is_background (p : probe) : bool :=
  String.eqb (gene p) "Background".

(** The flagged targets and the flagged antitargets of a profile, in the
    order of the profile. *)
Definition bad_targets (mn mx mr : float) (probes : CNA) : list probe :=
  filter (fun p => is_bad mn mx mr (has_rmask probes) p
                   && negb (is_background p)) (data probes).

Definition bad_antitargets (mn mx mr : float) (probes : CNA) : list probe :=
  filter (fun p => is_bad mn mx mr (has_rmask probes) p
                   && is_background p) (data probes).

(** The probe before position [i] of a list, if any. *)
Definition previous {A} (l : list A) (i : nat) : option A :=
  match i with
  | O => None
  | S j => nth_error l j
  end.

(** The number of probes that a part of the report counts. *)
Definition reported_targets (w : warning) : nat :=
  match targets w with Some t => fg_count t | None => 0 end.

Definition reported_antitargets (w : warning) : nat :=
  match antitargets w with Some a => bg_count a | None => 0 end.

(** The text in the gene column of line [i] of the listing of [rows]: the
    ditto mark when the probe before has the same gene, the gene
    otherwise. *)
Definition shown_gene (rows : list probe) (i : nat) (p : probe) : string :=
  match previous rows i with
  | Some q => if String.eqb (gene p) (gene q) then ditto else gene p
  | None => gene p
  end.

(* ================================================================== *)
(** ** The aggregation step in binary64 *)

(** The estimators of [Metrics] and the columnwise application of
    [apply_along_axis0] once more, with the operations of IEEE 754 double
    precision, which round, in the place of the exact ones.  A sum is
    accumulated in the order of the array. *)
Module Binary64.

Abbreviation float := PrimFloat.float.

Definition f0 : float := PrimFloat.zero.
Definition f1 : float := PrimFloat.one.

(** The integer [p], by doubling. *)
Definition of_pos (p : positive) : float := Pos.iter_op PrimFloat.add p f1.

Definition of_Z (z : Z) : float :=
  match z with
  | Z0 => f0
  | Zpos p => of_pos p
  | Zneg p => PrimFloat.opp (of_pos p)
  end.

Definition of_nat (n : nat) : float := of_Z (Z.of_nat n).

(** The double nearest to [n / d]. *)
Definition dec (n : Z) (d : positive) : float :=
  PrimFloat.div (of_Z n) (of_pos d).

Definition max (a b : float) : float := if PrimFloat.ltb a b then b else a.

Fixpoint insert (x : float) (l : list float) : list float :=
  match l with
  | [] => [x]
  | y :: l' => if PrimFloat.ltb y x then y :: insert x l' else x :: l
  end.

Definition sort (l : list float) : list float := fold_right insert [] l.

Definition sum (a : list float) : float := fold_right PrimFloat.add f0 a.

Definition sq (x : float) : float := PrimFloat.mul x x.

Definition median (a : list float) : float :=
  if existsb PrimFloat.is_nan a then PrimFloat.nan
  else
    let s := sort a in
    let n := List.length s in
    match n with
    | O => PrimFloat.nan
    | _ =>
        if Nat.odd n then nth (n / 2) s f0
        else PrimFloat.div
               (PrimFloat.add (nth (n / 2 - 1) s f0) (nth (n / 2) s f0))
               (of_Z 2)
    end.

Definition median_absolute_deviation (a : list float) : float :=
  let m := median a in
  median (map (fun x => PrimFloat.abs (PrimFloat.sub x m)) a).

Section Biweight.

Variables c epsilon : float.

Definition scale (a : list float) : float :=
  max (PrimFloat.mul c (median_absolute_deviation a)) epsilon.

Definition inliers (s t : float) (a : list float) : list float :=
  filter (fun x =>
            PrimFloat.ltb (PrimFloat.abs (PrimFloat.div (PrimFloat.sub x t) s))
              f1) a.

Definition weight (u : float) : float := sq (PrimFloat.sub f1 (sq u)).

Definition reweight (s : float) (a : list float) (t : float) : float :=
  let kept := inliers s t a in
  PrimFloat.add t
    (PrimFloat.div
       (sum (map (fun x =>
                    PrimFloat.mul (PrimFloat.sub x t)
                      (weight (PrimFloat.div (PrimFloat.sub x t) s))) kept))
       (sum (map (fun x => weight (PrimFloat.div (PrimFloat.sub x t) s))
                 kept))).

Variable rounds : nat.

Definition biweight_location (a : list float) : float :=
  Nat.iter rounds (reweight (scale a) a) (median a).

Definition biweight_midvariance (a : list float) : float :=
  let m := median a in
  let s := scale a in
  let kept := inliers s m a in
  let u x := PrimFloat.div (PrimFloat.sub x m) s in
  PrimFloat.div
    (PrimFloat.mul (of_nat (List.length a))
       (sum (map (fun x =>
                    PrimFloat.mul (sq (PrimFloat.sub x m))
                      (sq (sq (PrimFloat.sub f1 (sq (u x)))))) kept)))
    (sq (sum (map (fun x =>
                     PrimFloat.mul (PrimFloat.sub f1 (sq (u x)))
                       (PrimFloat.sub f1 (PrimFloat.mul (of_Z 5) (sq (u x)))))
                  kept))).

End Biweight.

Definition column (j : nat) (matrix : list (list float)) : list float :=
  map (fun row => nth j row PrimFloat.nan) matrix.

Definition apply_along_axis0 (f : list float -> float)
    (matrix : list (list float)) : list float :=
  map (fun j => f (column j matrix)) (seq 0 (List.length (hd [] matrix))).

(** Two arrays with the same numbers. *)
Fixpoint same (a b : list float) : bool :=
  match a, b with
  | [], [] => true
  | x :: a', y :: b' => PrimFloat.eqb x y && same a' b'
  | _, _ => false
  end.

(** The rows of [Examples.three_rows] and of
    [Examples.three_rows_permuted], and the tuning constants of
    [Examples], as doubles. *)
Definition three_rows : list (list float) :=
  [ [dec 0 1; dec 1 2]; [dec 1 10; dec 1 4]; [dec (-1) 20; dec 1 2] ].

Definition three_rows_permuted : list (list float) :=
  [ [dec 1 10; dec 1 4]; [dec (-1) 20; dec 1 2]; [dec 0 1; dec 1 2] ].

Definition c_location : float := of_Z 6.
Definition c_midvariance : float := of_Z 9.
Definition epsilon : float := dec 1 10000.

End Binary64.

(* ================================================================== *)
(** * Properties *)

(** ** Records and masks *)

Lemma set_coverage_same p : set_coverage (coverage p) p = p.
Proof. destruct p; reflexivity. Qed.

Lemma update_coverage_map f label rows :
  update_coverage f (eq_mask (map chromosome rows) label) rows
  = map (fun p => if String.eqb (chromosome p) label
                  then set_coverage (f (coverage p)) p else p) rows.
Proof.
  induction rows as [|p rows IH]; [reflexivity|].
  cbn [map eq_mask update_coverage]. f_equal. exact IH.
Qed.

Lemma coverage_where_eq label f pset :
  coverage_where label f pset
  = set_data (map (fun p => if String.eqb (chromosome p) label
                            then set_coverage (f (coverage p)) p else p)
                  (data pset)) pset.
Proof.
  unfold coverage_where, col. now rewrite update_coverage_map.
Qed.

Lemma set_data_set_data r r' a : set_data r (set_data r' a) = set_data r a.
Proof. reflexivity. Qed.

Lemma set_data_same a : set_data (data a) a = a.
Proof. destruct a; reflexivity. Qed.

Lemma set_data_map_id (g : probe -> probe) a :
  (forall p, g p = p) -> set_data (map g (data a)) a = a.
Proof.
  intros Hg. rewrite (map_ext g (fun p => p) Hg), map_id.
  apply set_data_same.
Qed.

(** ** Sex-chromosome normalisation *)

Section ShiftFacts.

Variable guess_xx : CNA -> string -> bool.
Variable is_male_normal : bool.
Variables chr_x chr_y : string.

Let shift := shift_sex_chroms guess_xx is_male_normal chr_x chr_y.

(** The normaliser acts row by row, through a function that keeps every
    field but the coverage and every row that is neither on X nor on Y. *)
Lemma shift_sex_chroms_rowwise pset :
  exists g : probe -> probe,
    shift pset = set_data (map g (data pset)) pset
    /\ (forall p, exists v, g p = set_coverage v p)
    /\ (forall p, chromosome p <> chr_x -> chromosome p <> chr_y -> g p = p).
Proof.
  unfold shift, shift_sex_chroms.
  set (gx := fun p => if String.eqb (chromosome p) chr_x
                      then set_coverage (coverage p - f1)%fl p else p).
  set (gy := fun p => if String.eqb (chromosome p) chr_y
                      then set_coverage fm1 p else p).
  set (gp := fun p => if String.eqb (chromosome p) chr_x
                      then set_coverage (coverage p + f1)%fl p else p).
  assert (Hx : forall p, chromosome p <> chr_x ->
                 String.eqb (chromosome p) chr_x = false)
    by (intros p; apply String.eqb_neq).
  assert (Hy : forall p, chromosome p <> chr_y ->
                 String.eqb (chromosome p) chr_y = false)
    by (intros p; apply String.eqb_neq).
  destruct is_male_normal, (guess_xx pset chr_x).
  - exists (fun p => gy (gx p)). split; [|split].
    + rewrite !coverage_where_eq. simpl. now rewrite map_map.
    + intros p. unfold gy, gx.
      destruct (String.eqb (chromosome p) chr_x); simpl;
        destruct (String.eqb (chromosome p) chr_y); simpl.
      * now exists fm1.
      * now exists (coverage p - f1)%fl.
      * now exists fm1.
      * exists (coverage p). symmetry; apply set_coverage_same.
    + intros p Hpx Hpy. unfold gy, gx. rewrite (Hx p Hpx), (Hy p Hpy).
      reflexivity.
  - exists (fun p => p). split; [|split]; auto.
    + symmetry. now apply set_data_map_id.
    + intros p. exists (coverage p). symmetry; apply set_coverage_same.
  - exists gy. split; [|split].
    + apply coverage_where_eq.
    + intros p. unfold gy. destruct (String.eqb (chromosome p) chr_y); eauto.
      exists (coverage p). symmetry; apply set_coverage_same.
    + intros p _ Hpy. unfold gy. now rewrite (Hy p Hpy).
  - exists gp. split; [|split].
    + apply coverage_where_eq.
    + intros p. unfold gp. destruct (String.eqb (chromosome p) chr_x); eauto.
      exists (coverage p). symmetry; apply set_coverage_same.
    + intros p Hpx _. unfold gp. now rewrite (Hx p Hpx).
Qed.

Lemma shift_sex_chroms_len pset : len (shift pset) = len pset.
Proof.
  destruct (shift_sex_chroms_rowwise pset) as (g & -> & _).
  unfold len; simpl. apply length_map.
Qed.

Lemma shift_sex_chroms_col {A} (f : probe -> A) pset :
  (forall v p, f (set_coverage v p) = f p) ->
  col f (shift pset) = col f pset.
Proof.
  intros Hf. destruct (shift_sex_chroms_rowwise pset) as (g & -> & Hg & _).
  unfold col; simpl. rewrite map_map. apply map_ext.
  intros p. destruct (Hg p) as [v ->]. apply Hf.
Qed.

Lemma shift_sex_chroms_has_key key pset :
  has_key key (shift pset) = has_key key pset.
Proof.
  destruct (shift_sex_chroms_rowwise pset) as (g & -> & _). reflexivity.
Qed.

End ShiftFacts.

(** C1.  Sex-chromosome normalisation follows the four-row table: for a
    male-normal reference and an XX sample the coverage of every X row
    loses 1.0 and the coverage of every Y row becomes -1.0; for a
    male-normal reference and another sample nothing changes; for a
    female-normal reference and an XX sample only the Y rows change, to
    -1.0; for a female-normal reference and another sample only the X
    rows change, by +1.0; the rows of the other chromosomes and the
    other fields are unchanged in all four cases. *)
Theorem shift_sex_chroms_table :
  forall (guess_xx : CNA -> string -> bool) (is_male_normal : bool)
         (chr_x chr_y : string) (pset : CNA),
    chr_x <> chr_y ->
    shift_sex_chroms guess_xx is_male_normal chr_x chr_y pset
    = set_data
        (map (sex_table is_male_normal (guess_xx pset chr_x) chr_x chr_y)
             (data pset))
        pset.
Proof.
  intros guess_xx is_male_normal chr_x chr_y pset Hxy.
  unfold shift_sex_chroms, sex_table.
  destruct is_male_normal, (guess_xx pset chr_x).
  - rewrite !coverage_where_eq. rewrite set_data_set_data. simpl.
    rewrite map_map. f_equal. apply map_ext. intros p.
    destruct (String.eqb_spec (chromosome p) chr_x) as [Hx|Hx]; simpl.
    + destruct (String.eqb_spec (chromosome p) chr_y) as [Hy|Hy];
        [congruence | reflexivity].
    + reflexivity.
  - symmetry. now apply set_data_map_id.
  - apply coverage_where_eq.
  - apply coverage_where_eq.
Qed.

(** C9.  Sex-chromosome normalisation changes the coverage field only,
    and only on rows whose chromosome is the X label or the Y label: the
    sample id, the dtype, the number of rows and the chromosome, start,
    end and gene columns (and the gc, rmask and spread columns) are the
    same before and after, and a row on another chromosome is the same
    row after. *)
Theorem shift_sex_chroms_frame :
  forall (guess_xx : CNA -> string -> bool) (is_male_normal : bool)
         (chr_x chr_y : string) (pset : CNA),
    let pset' := shift_sex_chroms guess_xx is_male_normal chr_x chr_y pset in
    sample_id pset' = sample_id pset
    /\ (forall key, has_key key pset' = has_key key pset)
    /\ len pset' = len pset
    /\ col chromosome pset' = col chromosome pset
    /\ col start pset' = col start pset
    /\ col end_ pset' = col end_ pset
    /\ col gene pset' = col gene pset
    /\ col gc pset' = col gc pset
    /\ col rmask pset' = col rmask pset
    /\ col spread pset' = col spread pset
    /\ (forall i p,
          nth_error (data pset) i = Some p ->
          chromosome p <> chr_x -> chromosome p <> chr_y ->
          nth_error (data pset') i = Some p).
Proof.
  intros guess_xx is_male_normal chr_x chr_y pset pset'.
  repeat split;
    try (apply shift_sex_chroms_col; reflexivity).
  - unfold pset'.
    destruct (shift_sex_chroms_rowwise guess_xx is_male_normal chr_x chr_y pset)
      as (g & -> & _). reflexivity.
  - intros key. apply shift_sex_chroms_has_key.
  - apply shift_sex_chroms_len.
  - intros i p Hi Hx Hy. unfold pset'.
    destruct (shift_sex_chroms_rowwise guess_xx is_male_normal chr_x chr_y pset)
      as (g & -> & _ & Hg).
    simpl. rewrite nth_error_map, Hi. simpl. now rewrite Hg.
Qed.

Lemma shift_sex_chroms_table_witness :
  "chrX" <> "chrY"
  /\ shift_sex_chroms Examples.guess_xx true "chrX" "chrY" Examples.sample_xx
     = set_data
         (map (sex_table true (Examples.guess_xx Examples.sample_xx "chrX")
                 "chrX" "chrY")
              (data Examples.sample_xx))
         Examples.sample_xx.
Proof.
  split; [discriminate | apply shift_sex_chroms_table; discriminate].
Defined.

Lemma shift_sex_chroms_frame_witness :
  nth_error (data Examples.sample_xx) 0
  = Some (Examples.row "chr1" 0 100 "GENE1" (Examples.dec 1 10))
  /\ nth_error
       (data (shift_sex_chroms Examples.guess_xx true "chrX" "chrY"
                Examples.sample_xx)) 0
     = Some (Examples.row "chr1" 0 100 "GENE1" (Examples.dec 1 10)).
Proof.
  split; [reflexivity|].
  apply (shift_sex_chroms_frame Examples.guess_xx true "chrX" "chrY"
           Examples.sample_xx);
    [reflexivity | discriminate | discriminate].
Defined.

(** ** The flat reference *)

Lemma bed2probes_rows parse_regions fbase bed_fname :
  data (bed2probes parse_regions fbase bed_fname)
  = map flat_row (parse_regions bed_fname).
Proof.
  unfold bed2probes, from_rows; simpl. rewrite map_map.
  apply map_ext. intros [[[chrom s] e] name]. reflexivity.
Qed.

(** C5, as amended.  The flat build gives one row per interval, in
    order, with the interval's chromosome, start and end, the gene equal
    to the interval's name, and coverage 0.0; the spread, gc and rmask
    columns are always present and hold 0.0 on every row. *)
Theorem bed2probes_flat :
  forall (parse_regions : string -> list (string * Z * Z * string))
         (fbase : string -> string) (bed_fname : string),
    let ref := bed2probes parse_regions fbase bed_fname in
    let regions := parse_regions bed_fname in
    data ref = map flat_row regions
    /\ len ref = List.length regions
    /\ col gene ref = map snd regions
    /\ col coverage ref = map (fun _ => f0) regions
    /\ getitem "spread" ref = Ok (map (fun _ => f0) regions)
    /\ getitem "gc" ref = Ok (map (fun _ => f0) regions)
    /\ getitem "rmask" ref = Ok (map (fun _ => f0) regions)
    /\ sample_id ref = fbase bed_fname.
Proof.
  intros parse_regions fbase bed_fname ref regions.
  assert (Hrows : data ref = map flat_row regions)
    by apply bed2probes_rows.
  assert (Hcol : forall (f : probe -> float),
             (forall r, f (flat_row r) = f0) ->
             col f ref = map (fun _ => f0) regions).
  { intros f Hf. unfold col. rewrite Hrows, map_map.
    apply map_ext. exact Hf. }
  assert (Hzero : forall r, coverage (flat_row r) = f0
                            /\ spread (flat_row r) = f0
                            /\ gc (flat_row r) = f0
                            /\ rmask (flat_row r) = f0)
    by (intros [[[chrom s] e] name]; repeat split).
  repeat split.
  - exact Hrows.
  - unfold len. rewrite Hrows. apply length_map.
  - unfold col. rewrite Hrows, map_map. apply map_ext.
    intros [[[chrom s] e] name]. reflexivity.
  - apply Hcol. intros r. apply Hzero.
  - unfold getitem; simpl. f_equal. apply Hcol. intros r. apply Hzero.
  - unfold getitem; simpl. f_equal. apply Hcol. intros r. apply Hzero.
  - unfold getitem; simpl. f_equal. apply Hcol. intros r. apply Hzero.
Qed.

(** C5, as stated, fails: with no gc or rmask column requested, the flat
    build of two intervals still has both columns. *)
Lemma bed2probes_columns_not_on_request :
  ~ flat_build_as_specified false Examples.two_regions
      (bed2probes (fun _ => Examples.two_regions) (fun name => name)
         "targets.bed").
Proof.
  intros (_ & _ & _ & _ & _ & _ & Hgc & _).
  destruct Hgc as [Hgc _]. specialize (Hgc eq_refl). discriminate.
Qed.

Lemma bed2probes_as_requested parse_regions fbase bed_fname :
  flat_build_as_specified true (parse_regions bed_fname)
    (bed2probes parse_regions fbase bed_fname).
Proof.
  unfold flat_build_as_specified, getitem, col. cbn. unfold Ok.
  repeat split; try reflexivity;
    try (f_equal; rewrite ?map_map; apply map_ext;
         intros [[[chrom s] e] name]; reflexivity).
Qed.

(** ** The bad-probe mask *)

Lemma or_mask_map {A} (f g : A -> bool) (l : list A) :
  or_mask (map f l) (map g l) = map (fun x => f x || g x) l.
Proof. induction l as [|x l IH]; simpl; [reflexivity | now rewrite IH]. Qed.

Lemma ltb_Fin (x y : Qc) : (Fin x <? Fin y)%fl = true <-> (x < y)%Qc.
Proof.
  unfold Float.ltb. destruct (Qclt_le_dec x y) as [H|H]; split; auto.
  - discriminate.
  - intros H'. exfalso. exact (Qcle_not_lt _ _ H H').
Qed.

Lemma ltb_NaN_l (b : float) : (NaN <? b)%fl = false.
Proof. reflexivity. Qed.

Lemma ltb_NaN_r (a : float) : (a <? NaN)%fl = false.
Proof. destruct a; reflexivity. Qed.

(** The mask of a profile with a spread column, row by row. *)
Lemma mask_bad_probes_rows mn mx mr probes :
  has_spread probes = true ->
  mask_bad_probes mn mx mr probes
  = Ok (map (fun p => (coverage p <? mn)%fl
                      || (spread p >? mx)%fl
                      || (has_rmask probes && (rmask p >? mr)%fl))
            (data probes)).
Proof.
  intros Hs. unfold mask_bad_probes, getitem, has_key, col; simpl.
  rewrite Hs; simpl.
  destruct (has_rmask probes); simpl; unfold Ok; f_equal.
  - rewrite !map_map, !or_mask_map. apply map_ext. intros p.
    reflexivity.
  - rewrite !map_map, !or_mask_map. apply map_ext. intros p.
    now rewrite orb_false_r.
Qed.

(** C4.  On a reference profile (a profile with a spread column)
    [mask_bad_probes] returns one boolean per probe, and the boolean of
    a probe is true if and only if its coverage is strictly below the
    minimum, or its spread strictly above the maximum, or the profile
    has an rmask column and the probe's rmask is strictly above the
    maximal repeat fraction. *)
Theorem mask_bad_probes_iff :
  forall (MIN_BIN_COVERAGE MAX_BIN_SPREAD MAX_REPEAT_FRACTION : float)
         (probes : CNA),
    has_key "spread" probes = true ->
    exists mask,
      mask_bad_probes MIN_BIN_COVERAGE MAX_BIN_SPREAD MAX_REPEAT_FRACTION
        probes = Ok mask
      /\ List.length mask = len probes
      /\ forall i p,
           nth_error (data probes) i = Some p ->
           exists flag,
             nth_error mask i = Some flag
             /\ (flag = true <->
                 (coverage p <? MIN_BIN_COVERAGE)%fl = true
                 \/ (spread p >? MAX_BIN_SPREAD)%fl = true
                 \/ (has_key "rmask" probes = true
                     /\ (rmask p >? MAX_REPEAT_FRACTION)%fl = true)).
Proof.
  intros mn mx mr probes Hs.
  change (has_spread probes = true) in Hs.
  change (has_key "rmask" probes) with (has_rmask probes).
  eexists. split; [apply mask_bad_probes_rows; exact Hs|].
  split; [unfold len; apply length_map|].
  intros i p Hi. eexists. split.
  - rewrite nth_error_map, Hi. reflexivity.
  - rewrite !orb_true_iff, andb_true_iff. tauto.
Qed.

(** ** GC and repeat-masked content *)

Lemma count_in_cons c chars s :
  existsb (Ascii.eqb c) chars = false ->
  count_in (c :: chars) s = count c s + count_in chars s.
Proof.
  intros Hc. unfold count_in.
  induction s as [|a s IH]; [reflexivity|].
  simpl in *.
  destruct (Ascii.eqb_spec a c) as [->|Hac].
  - rewrite Hc. simpl. rewrite IH. reflexivity.
  - simpl. destruct (existsb (Ascii.eqb a) chars); simpl; rewrite IH; lia.
Qed.

Lemma count_in_nil s : count_in [] s = 0.
Proof.
  unfold count_in. induction s as [|a s IH]; [reflexivity | exact IH].
Qed.

Lemma qnat_le n m : n <= m -> (qnat n <= qnat m)%Qc.
Proof.
  intros H. unfold Qcle, qnat, Q2Qc. cbn [this]. rewrite !Qred_correct.
  rewrite <- Zle_Qle. lia.
Qed.

Lemma qnat_0 : qnat 0 = 0%Qc.
Proof. apply Qc_is_canon. reflexivity. Qed.

Lemma qnat_inj n m : qnat n = qnat m -> n = m.
Proof.
  intros H. apply (f_equal this) in H. unfold qnat, Q2Qc in H.
  cbn [this] in H.
  assert (Hq : (inject_Z (Z.of_nat n) == inject_Z (Z.of_nat m))%Q)
    by (rewrite <- (Qred_correct (inject_Z (Z.of_nat n))),
                <- (Qred_correct (inject_Z (Z.of_nat m))), H; reflexivity).
  apply Nat2Z.inj. exact (proj1 (inject_Z_injective _ _) Hq).
Qed.

Lemma qnat_pos n : n <> 0 -> (0 < qnat n)%Qc.
Proof.
  intros H. destruct (Qcle_lt_or_eq _ _ (qnat_le 0 n (Nat.le_0_l n)))
    as [Hlt|Heq].
  - now rewrite qnat_0 in Hlt.
  - apply qnat_inj in Heq. congruence.
Qed.

Lemma Qc_eq_bool_false (x y : Qc) : x <> y -> Qc_eq_bool x y = false.
Proof.
  intros H. destruct (Qc_eq_bool x y) eqn:E; [|reflexivity].
  apply Qc_eq_bool_correct in E. contradiction.
Qed.

(** A fraction of two counts lies between 0 and 1. *)
Lemma qnat_ratio_bounds n d :
  n <= d -> d <> 0 -> (0 <= qnat n / qnat d /\ qnat n / qnat d <= 1)%Qc.
Proof.
  intros Hle Hd.
  assert (Hpos : (0 < qnat d)%Qc) by now apply qnat_pos.
  assert (Hne : qnat d <> 0%Qc).
  { intros E. rewrite E in Hpos. exact (Qclt_not_le _ _ Hpos (Qcle_refl _)). }
  assert (Hmul : (qnat n / qnat d * qnat d = qnat n)%Qc) by (field; exact Hne).
  split; apply (Qcmult_lt_0_le_reg_r _ _ (qnat d) Hpos); rewrite Hmul.
  - replace (0 * qnat d)%Qc with (qnat 0) by (rewrite qnat_0; ring).
    apply qnat_le. lia.
  - replace (1 * qnat d)%Qc with (qnat d) by ring.
    now apply qnat_le.
Qed.

(** The result of [calculate_gc_lo] from the three counts of the spec. *)
Lemma calculate_gc_lo_counts s :
  let total := count_in ["a"; "t"; "g"; "c"; "A"; "T"; "G"; "C"]%char s in
  let n_gc := count_in ["g"; "c"; "G"; "C"]%char s in
  let n_lo := count_in ["a"; "t"; "g"; "c"]%char s in
  calculate_gc_lo s
  = if Nat.eqb total 0 then (f0, f0)
    else (Fin (qnat n_gc / qnat total), Fin (qnat n_lo / qnat total)).
Proof.
  intros total n_gc n_lo. unfold calculate_gc_lo.
  set (t := count "G" s + count "C" s + (count "g" s + count "c" s)
            + (count "A" s + count "T" s) + (count "a" s + count "t" s)).
  assert (Ht : t = total).
  { unfold t, total.
    rewrite !count_in_cons, count_in_nil by reflexivity. lia. }
  assert (Hgc : count "g" s + count "c" s + (count "G" s + count "C" s)
                = n_gc).
  { unfold n_gc. rewrite !count_in_cons, count_in_nil by reflexivity. lia. }
  assert (Hlo : count "a" s + count "t" s + (count "g" s + count "c" s)
                = n_lo).
  { unfold n_lo. rewrite !count_in_cons, count_in_nil by reflexivity. lia. }
  rewrite Hgc, Hlo, Ht. clear t Ht Hgc Hlo.
  unfold Float.eqb, of_nat, of_Z, f0. fold (qnat total).
  destruct (Nat.eqb_spec total 0) as [E|E].
  - rewrite E, qnat_0. reflexivity.
  - assert (Hne : qnat total <> 0%Qc).
    { rewrite <- qnat_0. intros H. apply qnat_inj in H. contradiction. }
    rewrite (Qc_eq_bool_false _ _ Hne).
    unfold Float.div. fold (qnat n_gc) (qnat n_lo).
    rewrite (Qc_eq_bool_false _ _ Hne). reflexivity.
Qed.

Lemma count_in_incl chars chars' s :
  (forall a, existsb (Ascii.eqb a) chars = true ->
             existsb (Ascii.eqb a) chars' = true) ->
  count_in chars s <= count_in chars' s.
Proof.
  intros H. unfold count_in.
  induction (list_ascii_of_string s) as [|a l IH]; simpl; [lia|].
  destruct (existsb (Ascii.eqb a) chars) eqn:E.
  - rewrite (H a E). simpl. lia.
  - destruct (existsb (Ascii.eqb a) chars'); simpl; lia.
Qed.

Lemma float_pair_eq (a b c d : Qc) :
  (a == c)%Q -> (b == d)%Q -> (Fin a, Fin b) = (Fin c, Fin d).
Proof.
  intros H1 H2. apply Qc_is_canon in H1. apply Qc_is_canon in H2.
  now subst.
Qed.

(** C6.  [calculate_gc_lo] returns (0.0, 0.0) for a string with none of
    the characters a, t, g, c, A, T, G, C; otherwise, with [total] the
    number of these characters, the GC fraction is the number of g, c,
    G, C over [total] and the repeat-masked fraction the number of the
    lowercase a, t, g, c over [total].  Both values are numbers in
    [0, 1].  The empty string gives (0.0, 0.0), GCgc gives (1.0, 0.5) and
    ATat gives (0.0, 0.5). *)
Theorem calculate_gc_lo_fractions :
  forall s : string,
    let total := count_in ["a"; "t"; "g"; "c"; "A"; "T"; "G"; "C"]%char s in
    let n_gc := count_in ["g"; "c"; "G"; "C"]%char s in
    let n_lo := count_in ["a"; "t"; "g"; "c"]%char s in
    (total = 0 -> calculate_gc_lo s = (f0, f0))
    /\ (total <> 0 ->
        calculate_gc_lo s
        = (Fin (qnat n_gc / qnat total), Fin (qnat n_lo / qnat total)))
    /\ (exists frac_gc frac_lo : Qc,
          calculate_gc_lo s = (Fin frac_gc, Fin frac_lo)
          /\ (0 <= frac_gc)%Qc /\ (frac_gc <= 1)%Qc
          /\ (0 <= frac_lo)%Qc /\ (frac_lo <= 1)%Qc)
    /\ calculate_gc_lo "" = (f0, f0)
    /\ calculate_gc_lo "GCgc" = (f1, Examples.dec 1 2)
    /\ calculate_gc_lo "ATat" = (f0, Examples.dec 1 2).
Proof.
  intros s total n_gc n_lo.
  pose proof (calculate_gc_lo_counts s) as Hs. cbv zeta in Hs.
  fold total n_gc n_lo in Hs.
  assert (Hgc : n_gc <= total).
  { apply count_in_incl. intros a Ha. simpl in *.
    repeat match type of Ha with
           | (?x || ?y)%bool = true => destruct x; simpl in Ha
           end;
      rewrite ?orb_true_r; try reflexivity; discriminate. }
  assert (Hlo : n_lo <= total).
  { apply count_in_incl. intros a Ha. simpl in *.
    repeat match type of Ha with
           | (?x || ?y)%bool = true => destruct x; simpl in Ha
           end;
      rewrite ?orb_true_r; try reflexivity; discriminate. }
  split; [|split; [|split; [|split; [|split]]]].
  - intros E. rewrite Hs, E. reflexivity.
  - intros E. rewrite Hs. now destruct (Nat.eqb_spec total 0).
  - rewrite Hs. destruct (Nat.eqb_spec total 0) as [E|E].
    + exists 0%Qc, 0%Qc. repeat split; try apply Qcle_refl; discriminate.
    + exists (qnat n_gc / qnat total)%Qc, (qnat n_lo / qnat total)%Qc.
      destruct (qnat_ratio_bounds n_gc total Hgc E).
      destruct (qnat_ratio_bounds n_lo total Hlo E).
      repeat split; assumption.
  - reflexivity.
  - rewrite calculate_gc_lo_counts. apply float_pair_eq; vm_compute;
      reflexivity.
  - rewrite calculate_gc_lo_counts. apply float_pair_eq; vm_compute;
      reflexivity.
Qed.

Lemma calculate_gc_lo_fractions_witness :
  count_in ["a"; "t"; "g"; "c"; "A"; "T"; "G"; "C"]%char "GCgcNN" <> 0
  /\ calculate_gc_lo "GCgcNN"
     = (Fin (qnat (count_in ["g"; "c"; "G"; "C"]%char "GCgcNN")
             / qnat (count_in ["a"; "t"; "g"; "c"; "A"; "T"; "G"; "C"]%char
                       "GCgcNN")),
        Fin (qnat (count_in ["a"; "t"; "g"; "c"]%char "GCgcNN")
             / qnat (count_in ["a"; "t"; "g"; "c"; "A"; "T"; "G"; "C"]%char
                       "GCgcNN"))).
Proof.
  split; [discriminate|].
  apply (calculate_gc_lo_fractions "GCgcNN"). discriminate.
Defined.

(** ** The report of the bad probes *)

Lemma select_map_filter {A} (f : A -> bool) (l : list A) :
  select (map f l) l = filter f l.
Proof.
  induction l as [|x l IH]; simpl; [reflexivity|].
  rewrite IH. reflexivity.
Qed.

Lemma count_true_map {A} (f : A -> bool) (l : list A) :
  count_true (map f l) = List.length (filter f l).
Proof.
  unfold count_true. induction l as [|x l IH]; simpl; [reflexivity|].
  destruct (f x); simpl; now rewrite IH.
Qed.

Lemma filter_select_length {A} (f : A -> bool) (mask : list bool)
    (l : list A) :
  List.length (filter f (select mask l)) <= List.length (filter f l).
Proof.
  revert mask. induction l as [|x l IH]; intros [|b mask]; simpl;
    try lia.
  specialize (IH mask).
  destruct b; simpl; destruct (f x); simpl; lia.
Qed.

Lemma div_of_nat n d :
  d <> 0 -> (of_nat n / of_nat d)%fl = Fin (qnat n / qnat d).
Proof.
  intros Hd. unfold Float.div, of_nat, of_Z. fold (qnat n) (qnat d).
  rewrite Qc_eq_bool_false; [reflexivity|].
  rewrite <- qnat_0. intros H. apply qnat_inj in H. contradiction.
Qed.

(** The selections of [warn_bad_probes], as filters of the flagged
    rows. *)
Lemma select_fg rows :
  select (ne_mask (map gene rows) "Background") rows
  = filter (fun p => negb (String.eqb (gene p) "Background")) rows.
Proof.
  unfold ne_mask. rewrite map_map. apply select_map_filter.
Qed.

Lemma select_bg rows :
  select (map negb (ne_mask (map gene rows) "Background")) rows
  = filter (fun p => String.eqb (gene p) "Background") rows.
Proof.
  unfold ne_mask. rewrite !map_map.
  rewrite (map_ext _ (fun p => String.eqb (gene p) "Background"))
    by (intros p; apply negb_involutive).
  apply select_map_filter.
Qed.

(** C10.  The report of the bad probes never divides by zero.  On a
    profile with a spread column [warn_bad_probes] returns a report; a
    percentage is part of it only for a category with a flagged probe,
    and then the number of probes of the category, the divisor, is
    positive and the percentage is the number 100 * flagged / total; for
    a category without probes nothing is computed and nothing is
    reported. *)
Theorem warn_bad_probes_no_zero_division :
  forall (MIN_BIN_COVERAGE MAX_BIN_SPREAD MAX_REPEAT_FRACTION : float)
         (row2label : probe -> string) (probes : CNA),
    has_key "spread" probes = true ->
    let n_fg := count_true (ne_mask (col gene probes) "Background") in
    let n_bg := count_true (eq_mask (col gene probes) "Background") in
    exists w,
      warn_bad_probes MIN_BIN_COVERAGE MAX_BIN_SPREAD MAX_REPEAT_FRACTION
        row2label probes = Ok w
      /\ (forall t, targets w = Some t ->
            0 < n_fg /\ 0 < fg_count t <= n_fg
            /\ fg_pct t = Fin (qnat (100 * fg_count t) / qnat n_fg))
      /\ (forall a, antitargets w = Some a ->
            0 < n_bg /\ 0 < bg_count a <= n_bg
            /\ bg_pct a = Fin (qnat (100 * bg_count a) / qnat n_bg))
      /\ (n_fg = 0 -> targets w = None)
      /\ (n_bg = 0 -> antitargets w = None).
Proof.
  intros mn mx mr row2label probes Hs n_fg n_bg.
  change (has_spread probes = true) in Hs.
  unfold warn_bad_probes.
  rewrite (mask_bad_probes_rows mn mx mr probes Hs).
  set (mask := map _ (data probes)).
  cbn [bind Monad_result Monad_either Ok ret].
  eexists. split; [reflexivity|].
  unfold select_rows, col, len. cbn [data set_data].
  rewrite select_fg, select_bg.
  set (bad := select mask (data probes)).
  set (fg_bad := filter (fun p => negb (String.eqb (gene p) "Background")) bad).
  set (bg_bad := filter (fun p => String.eqb (gene p) "Background") bad).
  assert (Hfg : List.length fg_bad <= n_fg).
  { unfold n_fg, ne_mask, col. rewrite map_map, count_true_map.
    apply filter_select_length. }
  assert (Hbg : List.length bg_bad <= n_bg).
  { unfold n_bg, eq_mask, col. rewrite map_map, count_true_map.
    apply filter_select_length. }
  fold (col gene probes). fold n_fg n_bg.
  cbn [targets antitargets].
  split; [|split; [|split]].
  - intros t Ht.
    destruct (Nat.ltb_spec 0 (List.length fg_bad)); [|discriminate].
    injection Ht as <-. cbn [fg_pct fg_count].
    repeat split; try lia. apply div_of_nat. lia.
  - intros b Hb.
    destruct (Nat.ltb_spec 0 (List.length bg_bad)); [|discriminate].
    injection Hb as <-. cbn [bg_pct bg_count].
    repeat split; try lia. apply div_of_nat. lia.
  - intros E. destruct (Nat.ltb_spec 0 (List.length fg_bad)); [lia|].
    reflexivity.
  - intros E. destruct (Nat.ltb_spec 0 (List.length bg_bad)); [lia|].
    reflexivity.
Qed.

(** ** Pooling the samples *)

Lemma all_equal_true {A} (eqb : A -> A -> bool) (a b : list A) :
  (forall x y, eqb x y = true <-> x = y) ->
  List.length a = List.length b ->
  all_equal eqb a b = true <-> a = b.
Proof.
  intros Heqb. unfold all_equal. revert b.
  induction a as [|x a IH]; intros [|y b] Hlen; simpl in *;
    try discriminate.
  - tauto.
  - rewrite andb_true_iff, Heqb, (IH b) by lia.
    split; [intros [-> ->]; reflexivity | intros E; now inversion E].
Qed.

Lemma same_probes_grid a b : same_probes a b = true <-> same_grid a b.
Proof.
  unfold same_probes, same_grid. rewrite !andb_true_iff, Nat.eqb_eq.
  split.
  - intros ((((Hlen & Hc) & Hs) & He) & Hg).
    assert (Hl : forall {A} (f : probe -> A),
               List.length (col f a) = List.length (col f b))
      by (intros A f; unfold col; rewrite !length_map; exact Hlen).
    apply all_equal_true in Hc, Hs, He, Hg;
      auto using String.eqb_eq, Z.eqb_eq.
  - intros (Hlen & Hc & Hs & He & Hg).
    assert (Hl : forall {A} (f : probe -> A),
               List.length (col f a) = List.length (col f b))
      by (intros A f; unfold col; rewrite !length_map; exact Hlen).
    repeat split; auto;
      apply all_equal_true; auto using String.eqb_eq, Z.eqb_eq.
Qed.

Lemma same_grid_shift guess_xx is_male_normal chr_x chr_y a b :
  same_grid (shift_sex_chroms guess_xx is_male_normal chr_x chr_y a) b
  <-> same_grid a b.
Proof.
  unfold same_grid.
  rewrite shift_sex_chroms_len, !shift_sex_chroms_col by reflexivity.
  tauto.
Qed.

Section LoadSamples.

Variable read : string -> CNA.
Variable cnarr1 : CNA.
Variable first : string.
Variable shift : CNA -> CNA.

(** The loop stops at the first file off the grid of [cnarr1], with the
    error that names it; without such a file it appends the normalised
    coverage of every file. *)
Lemma load_samples_result fnames acc :
  match load_samples read cnarr1 first shift fnames acc with
  | inl e =>
      exists before fname after,
        fnames = before ++ fname :: after
        /\ e = RuntimeError fname first
        /\ ~ same_grid cnarr1 (read fname)
        /\ Forall (fun f => same_grid cnarr1 (read f)) before
  | inr rows =>
      rows = acc ++ map (fun f => col coverage (shift (read f))) fnames
      /\ Forall (fun f => same_grid cnarr1 (read f)) fnames
  end.
Proof.
  revert acc. induction fnames as [|fname fnames IH]; intros acc; simpl.
  - split; [now rewrite app_nil_r | constructor].
  - destruct (same_probes cnarr1 (read fname)) eqn:E; simpl.
    + apply same_probes_grid in E.
      specialize (IH (acc ++ [col coverage (shift (read fname))])).
      destruct (load_samples read cnarr1 first shift fnames _) as [e|rows].
      * destruct IH as (before & f & after & -> & -> & Hbad & Hgood).
        exists (fname :: before), f, after. repeat split; auto.
      * destruct IH as [-> Hall]. split; [|now constructor].
        now rewrite <- app_assoc.
    + exists [], fname, fnames. repeat split; auto.
      intros H. apply same_probes_grid in H. congruence.
Qed.

End LoadSamples.

Section CombineFacts.

Variable read : string -> CNA.
Variable guess_chr_x : CNA -> string.
Variable guess_xx : CNA -> string -> bool.
Variables biweight_location biweight_midvariance : list float -> float.

(** The normaliser that [combine_probes] builds from its first file. *)
Let shift_of (first : string) (is_male_normal : bool) : CNA -> CNA :=
  let chr_x := guess_chr_x (read first) in
  shift_sex_chroms guess_xx is_male_normal chr_x (chr_y_of chr_x).

Lemma load_coverages_result first rest is_male_normal :
  match load_coverages read guess_chr_x guess_xx (first :: rest)
          is_male_normal with
  | inl e =>
      exists before fname after,
        rest = before ++ fname :: after
        /\ e = RuntimeError fname first
        /\ ~ same_grid (read first) (read fname)
        /\ Forall (fun f => same_grid (read first) (read f)) before
  | inr loaded =>
      fst loaded = shift_of first is_male_normal (read first)
      /\ snd loaded
         = map (fun f => col coverage (shift_of first is_male_normal (read f)))
               (first :: rest)
      /\ Forall (fun f => same_grid (read first) (read f)) rest
  end.
Proof.
  unfold load_coverages.
  fold (shift_of first is_male_normal).
  set (shift := shift_of first is_male_normal).
  pose proof (load_samples_result read (shift (read first)) first shift rest
                [col coverage (shift (read first))]) as H.
  assert (Hgrid : forall f, same_grid (shift (read first)) (read f)
                            <-> same_grid (read first) (read f))
    by (intros f; apply same_grid_shift).
  destruct (load_samples read (shift (read first)) first shift rest _)
    as [e|rows]; cbn [bind Monad_result Monad_either ret fst snd].
  - destruct H as (before & fname & after & -> & -> & Hbad & Hgood).
    exists before, fname, after. repeat split; auto.
    + now rewrite <- Hgrid.
    + eapply Forall_impl; [|exact Hgood]. intros f. apply Hgrid.
  - destruct H as [-> Hall]. repeat split.
    eapply Forall_impl; [|exact Hall]. intros f. apply Hgrid.
Qed.

End CombineFacts.

Lemma vstack_rectangular (rows : list (list float)) (n : nat) :
  rows <> [] -> Forall (fun r => List.length r = n) rows ->
  vstack rows = Ok rows.
Proof.
  intros Hne Hall. destruct rows as [|r rows]; [contradiction|].
  unfold vstack. inversion Hall as [|? ? Hr Hrows]; subst.
  replace (forallb _ rows) with true; [reflexivity|].
  symmetry. apply forallb_forall. intros r' Hin.
  rewrite Forall_forall in Hrows. apply Nat.eqb_eq. now apply Hrows.
Qed.

Lemma map_nth_seq_all {A} (l : list A) (d : A) :
  map (fun i => nth i l d) (seq 0 (List.length l)) = l.
Proof.
  induction l as [|x l IH]; [reflexivity|].
  cbn [List.length seq map nth]. f_equal.
  rewrite <- seq_shift, map_map. exact IH.
Qed.

Lemma map_nth_seq_same {A} (l : list A) (d : A) (n : nat) :
  List.length l = n -> map (fun i => nth i l d) (seq 0 n) = l.
Proof. intros <-. apply map_nth_seq_all. Qed.

(** The grid of a profile built from columns of one length. *)
Lemma new_CNA_grid id chromosomes starts ends genes coverages kws kwg kwr :
  List.length starts = List.length chromosomes ->
  List.length ends = List.length chromosomes ->
  List.length genes = List.length chromosomes ->
  let ref := new_CNA id chromosomes starts ends genes coverages kws kwg kwr in
  sample_id ref = id
  /\ len ref = List.length chromosomes
  /\ col chromosome ref = chromosomes
  /\ col start ref = starts
  /\ col end_ ref = ends
  /\ col gene ref = genes.
Proof.
  intros Hs He Hg ref. unfold ref, new_CNA, col, len; cbn [data sample_id].
  rewrite length_map, length_seq, !map_map. cbn [chromosome start end_ gene].
  repeat split; auto using map_nth_seq_same.
Qed.

(** C3.  When several samples are pooled, [combine_probes] raises the
    error that names a file and the first file if and only if a sample
    after the first differs from the first in its number of probes or in
    a chromosome, start, end or gene value; the file named is such a
    sample.  When all the samples are on the grid of the first, no error
    is raised and the reference profile, on that grid, is returned. *)
Theorem combine_probes_mismatch :
  forall (read : string -> CNA) (guess_chr_x : CNA -> string)
         (guess_xx : CNA -> string -> bool)
         (biweight_location biweight_midvariance : list float -> float)
         (first : string) (rest : list string)
         (has_genome is_male_normal : bool),
    let outcome :=
      combine_probes read guess_chr_x guess_xx biweight_location
        biweight_midvariance (first :: rest) has_genome is_male_normal in
    ((exists fname, outcome = Raise (RuntimeError fname first))
     <-> (exists fname,
            In fname rest /\ ~ same_grid (read first) (read fname)))
    /\ (forall fname other,
          outcome = Raise (RuntimeError fname other) ->
          other = first /\ In fname rest
          /\ ~ same_grid (read first) (read fname))
    /\ ((forall fname, In fname rest -> same_grid (read first) (read fname)) ->
        exists ref,
          outcome = Ok ref /\ sample_id ref = "reference"
          /\ same_grid (read first) ref).
Proof.
  intros read guess_chr_x guess_xx loc mid first rest has_genome imn outcome.
  pose proof (load_coverages_result read guess_chr_x guess_xx first rest imn)
    as H.
  unfold outcome, combine_probes.
  destruct (load_coverages read guess_chr_x guess_xx (first :: rest) imn)
    as [e|[cnarr1 rows]]; cbn [bind Monad_result Monad_either ret fst snd].
  - destruct H as (before & bad & after & -> & -> & Hbad & Hgood).
    assert (Hin : In bad (before ++ bad :: after))
      by (apply in_or_app; right; left; reflexivity).
    split; [|split].
    + split; intros _; [exists bad; now split | now exists bad].
    + intros fname other E. injection E as <- <-. repeat split; auto.
    + intros Hall. exfalso. apply Hbad. now apply Hall.
  - cbn [fst snd] in H. destruct H as (-> & -> & Hall).
    set (chr_x := guess_chr_x (read first)) in *.
    set (shift := shift_sex_chroms guess_xx imn chr_x (chr_y_of chr_x)) in *.
    rewrite Forall_forall in Hall.
    assert (Hlen : forall f, len (shift (read f)) = len (read f))
      by (intros f; apply shift_sex_chroms_len).
    rewrite (vstack_rectangular _ (len (read first))).
    2: discriminate.
    2:{ apply Forall_forall. intros r Hr. apply in_map_iff in Hr.
        destruct Hr as (f & <- & Hf). unfold col. rewrite length_map.
        fold (len (shift (read f))). rewrite Hlen.
        destruct Hf as [<-|Hf]; [reflexivity | symmetry; apply (Hall f Hf)]. }
    cbn [bind Monad_result Monad_either ret Ok].
    split; [|split].
    + split; [intros [fname E]; discriminate|].
      intros (fname & Hin & Hbad). exfalso. now apply Hbad, Hall.
    + intros fname other E. discriminate.
    + intros _. eexists. split; [reflexivity|].
      match goal with
      | |- sample_id ?r = _ /\ _ =>
          match r with
          | new_CNA ?id ?c ?s ?e ?g ?v ?ks ?kg ?kr =>
              destruct (new_CNA_grid id c s e g v ks kg kr)
                as (Hid & Hn & Hc & Hs & He & Hg);
                try (unfold col; now rewrite !length_map)
          end
      end.
      split; [exact Hid|].
      unfold same_grid. rewrite Hn, Hc, Hs, He, Hg.
      unfold col at 1. rewrite length_map. fold (len (shift (read first))).
      rewrite Hlen. unfold shift.
      rewrite !shift_sex_chroms_col by reflexivity.
      repeat split.
Qed.

Lemma shift_sex_chroms_normalise_as guess_xx is_male_normal chr_x chr_y pset :
  shift_sex_chroms guess_xx is_male_normal chr_x chr_y pset
  = normalise_as (guess_xx pset chr_x) is_male_normal chr_x chr_y pset.
Proof. reflexivity. Qed.

Lemma new_CNA_coverage id chromosomes starts ends genes coverages kws kwg kwr :
  List.length coverages = List.length chromosomes ->
  col coverage
    (new_CNA id chromosomes starts ends genes coverages kws kwg kwr)
  = coverages.
Proof.
  intros H. unfold new_CNA, col; cbn [data]. rewrite map_map.
  cbn [coverage]. now apply map_nth_seq_same.
Qed.

(** C7, as amended.  In the sample-driven build the X label is inferred
    from the first sample and the Y label derived from it, and every
    sample is normalised for its own sex, inferred from that sample with
    the X label of the first: when the samples share the grid of the
    first, the rows that are pooled are the coverages of the samples so
    normalised, and the coverage of the reference is the location
    estimate of their columns. *)
Theorem combine_probes_sex_per_sample :
  forall (read : string -> CNA) (guess_chr_x : CNA -> string)
         (guess_xx : CNA -> string -> bool)
         (biweight_location biweight_midvariance : list float -> float)
         (first : string) (rest : list string)
         (has_genome is_male_normal : bool),
    (forall fname, In fname rest -> same_grid (read first) (read fname)) ->
    let chr_x := guess_chr_x (read first) in
    let chr_y := chr_y_of chr_x in
    let rows :=
      map (fun fname =>
             col coverage
               (normalise_as (guess_xx (read fname) chr_x) is_male_normal
                  chr_x chr_y (read fname)))
          (first :: rest) in
    (exists cnarr1,
        load_coverages read guess_chr_x guess_xx (first :: rest)
          is_male_normal = Ok (cnarr1, rows))
    /\ (exists ref,
          combine_probes read guess_chr_x guess_xx biweight_location
            biweight_midvariance (first :: rest) has_genome is_male_normal
          = Ok ref
          /\ col coverage ref = apply_along_axis0 biweight_location rows).
Proof.
  intros read guess_chr_x guess_xx loc mid first rest has_genome imn Hall
         chr_x chr_y rows.
  pose proof (load_coverages_result read guess_chr_x guess_xx first rest imn)
    as H.
  unfold combine_probes.
  destruct (load_coverages read guess_chr_x guess_xx (first :: rest) imn)
    as [e|[cnarr1 rows']].
  - destruct H as (before & bad & after & -> & _ & Hbad & _).
    exfalso. apply Hbad, Hall. apply in_or_app; right; left; reflexivity.
  - cbn [fst snd] in H. destruct H as (-> & -> & _).
    fold chr_x chr_y rows.
    assert (Hrows : Forall (fun r => List.length r = len (read first)) rows).
    { apply Forall_forall. intros r Hr. apply in_map_iff in Hr.
      destruct Hr as (f & <- & Hf). unfold col, normalise_as.
      rewrite length_map.
      fold (len (shift_sex_chroms (fun _ _ => guess_xx (read f) chr_x) imn
                   chr_x chr_y (read f))).
      rewrite shift_sex_chroms_len.
      destruct Hf as [<-|Hf]; [reflexivity | symmetry; apply (Hall f Hf)]. }
    split; [eexists; reflexivity|].
    cbn [bind Monad_result Monad_either ret fst snd].
    change (vstack _) with (vstack rows).
    rewrite (vstack_rectangular rows (len (read first)));
      [|discriminate | exact Hrows].
    cbn [bind Monad_result Monad_either ret Ok].
    eexists. split; [reflexivity|].
    apply new_CNA_coverage.
    unfold apply_along_axis0, col. rewrite !length_map, length_seq.
    cbn [rows map hd]. unfold col. rewrite length_map.
    reflexivity.
Qed.

(** C7, as stated, fails: with a male-normal reference, a female first
    sample and a male second sample, the second sample is left as it is,
    not shifted as a female sample would be. *)
Lemma sex_not_from_first_sample :
  ~ sex_from_first_sample Examples.read Examples.guess_chr_x
      Examples.guess_xx ["female.cnn"; "male.cnn"] true.
Proof.
  intros H. specialize (H _ _ eq_refl). cbv zeta in H.
  apply (f_equal (fun rows =>
                    match nth 1 (nth 1 rows []) NaN with
                    | Fin q => Some (this q)
                    | NaN => None
                    end)) in H.
  vm_compute in H. discriminate.
Qed.

(** ** The robust estimators *)

(** *** Arithmetic of [float] *)



Lemma add_0_r (x : Qc) : (Fin x + f0)%fl = Fin x.
Proof. simpl. f_equal. ring. Qed.

Lemma sub_diag (x : Qc) : (Fin x - Fin x)%fl = f0.
Proof. simpl. unfold f0. f_equal. ring. Qed.

Lemma mul_0_r (x : Qc) : (Fin x * f0)%fl = f0.
Proof. simpl. unfold f0. f_equal. ring. Qed.

Lemma div_0_l (x : Qc) : x <> 0%Qc -> (f0 / Fin x)%fl = f0.
Proof.
  intros Hx. unfold Float.div, f0. rewrite Qc_eq_bool_false by exact Hx.
  f_equal. field. exact Hx.
Qed.

Lemma abs_0 : Float.abs f0 = f0.
Proof.
  unfold Float.abs, f0. destruct (Qclt_le_dec 0 0); f_equal; ring.
Qed.

Lemma ltb_0_1 : (f0 <? f1)%fl = true.
Proof. apply ltb_Fin. reflexivity. Qed.

Lemma max_0_pos (e : Qc) : (0 < e)%Qc -> Float.max f0 (Fin e) = Fin e.
Proof.
  intros He. unfold Float.max, Float.gtb, f0.
  now rewrite (proj2 (ltb_Fin 0 e) He).
Qed.

Lemma Qclt_neq (e : Qc) : (0 < e)%Qc -> e <> 0%Qc.
Proof.
  intros He E. rewrite E in He. exact (Qclt_not_le _ _ He (Qcle_refl _)).
Qed.

(** *** Sums and selections under permutation *)



(** *** Sorting *)

(** Decides the cases of comparisons of rationals: the impossible ones
    by linear arithmetic, the others once equal values are identified. *)
Ltac order_cases :=
  repeat match goal with
         | |- context [Qclt_le_dec ?a ?b] =>
             destruct (Qclt_le_dec a b); simpl
         end;
  try reflexivity;
  try (exfalso; unfold Qclt, Qcle in *; lra);
  try match goal with
      | x : Qc, y : Qc |- _ =>
          assert (x = y) by (apply Qcle_antisym; unfold Qclt, Qcle in *; lra);
          subst; reflexivity
      end.






Section BiweightPermutation.

Variables c epsilon : Qc.
Variable rounds : nat.
Variables a a' : list float.
Hypothesis Haa' : Permutation a a'.






End BiweightPermutation.

(** ** The aggregation step *)





(** *** A column of equal values *)

Lemma finite_repeat (x : Qc) (k : nat) :
  Metrics.finite (repeat (Fin x) k) = Some (repeat x k).
Proof. induction k as [|k IH]; simpl; [reflexivity | now rewrite IH]. Qed.

Lemma sort_repeat (x : Qc) (k : nat) :
  Metrics.sort (repeat x k) = repeat x k.
Proof.
  induction k as [|k IH]; simpl; [reflexivity|].
  fold (Metrics.sort (repeat x k)). rewrite IH.
  destruct k as [|k]; simpl; [reflexivity|]. order_cases.
Qed.

Lemma sum_repeat_0 (k : nat) : Metrics.sum (repeat f0 k) = f0.
Proof.
  unfold Metrics.sum.
  induction k as [|k IH]; cbn [repeat fold_right]; [reflexivity|].
  rewrite IH. apply (add_0_r 0).
Qed.

Lemma qnat_S (k : nat) : qnat (S k) = (1 + qnat k)%Qc.
Proof.
  apply Qc_is_canon. unfold qnat, Qcplus, Q2Qc. cbn [this].
  rewrite !Qred_correct. rewrite Nat2Z.inj_succ.
  unfold Z.succ. rewrite inject_Z_plus. ring.
Qed.

Lemma sum_repeat_1 (k : nat) : Metrics.sum (repeat f1 k) = Fin (qnat k).
Proof.
  unfold Metrics.sum.
  induction k as [|k IH]; cbn [repeat fold_right].
  - unfold f0. now rewrite qnat_0.
  - rewrite IH. unfold f1, Float.add, lift2. now rewrite qnat_S.
Qed.

Lemma filter_repeat_true {A} (f : A -> bool) (x : A) (k : nat) :
  f x = true -> filter f (repeat x k) = repeat x k.
Proof.
  intros H. induction k as [|k IH]; simpl; [reflexivity|].
  now rewrite H, IH.
Qed.

Lemma half_lt (k : nat) : 1 <= k -> k / 2 < k.
Proof. intros H. apply Nat.div_lt; lia. Qed.

Lemma median_repeat (x : Qc) (k : nat) :
  1 <= k -> Metrics.median (repeat (Fin x) k) = Fin x.
Proof.
  intros Hk. unfold Metrics.median.
  rewrite finite_repeat, sort_repeat, repeat_length.
  destruct k as [|k]; [lia|].
  rewrite !(nth_repeat_lt x 0%Qc) by (pose proof (half_lt (S k)); lia).
  destruct (Nat.odd (S k)); [reflexivity|].
  unfold Float.add, Float.div, lift2, of_Z.
  assert (H2 : Q2Qc (inject_Z 2) = (1 + 1)%Qc)
    by (apply Qc_is_canon; reflexivity).
  assert (Hne : (1 + 1)%Qc <> 0%Qc) by discriminate.
  rewrite H2, Qc_eq_bool_false by exact Hne.
  f_equal. field. exact Hne.
Qed.

Section BiweightConstant.

Variables c epsilon : Qc.
Variable rounds : nat.
Hypothesis epsilon_pos : (0 < epsilon)%Qc.

Variable x : Qc.
Variable k : nat.
Hypothesis k_pos : 1 <= k.

Let a := repeat (Fin x) k.

Lemma median_column : Metrics.median a = Fin x.
Proof. now apply median_repeat. Qed.

Lemma mad_repeat : Metrics.median_absolute_deviation a = f0.
Proof.
  unfold Metrics.median_absolute_deviation. rewrite median_column.
  unfold a. rewrite map_repeat, sub_diag, abs_0.
  now apply (median_repeat 0%Qc).
Qed.

Lemma scale_repeat : Metrics.scale c epsilon a = Fin epsilon.
Proof.
  unfold Metrics.scale. rewrite mad_repeat, mul_0_r.
  now apply max_0_pos.
Qed.

(** The standardised distance of the common value to itself. *)
Lemma distance_repeat : ((Fin x - Fin x) / Fin epsilon)%fl = f0.
Proof. rewrite sub_diag. apply div_0_l. now apply Qclt_neq. Qed.

Lemma inliers_repeat : Metrics.inliers (Fin epsilon) (Fin x) a = a.
Proof.
  unfold Metrics.inliers, a. apply filter_repeat_true.
  rewrite distance_repeat, abs_0. apply ltb_0_1.
Qed.

Lemma weight_0 : Metrics.weight f0 = f1.
Proof.
  unfold Metrics.weight, Metrics.sq, f0, f1; simpl. f_equal; try ring.
Qed.

Lemma qnat_k_neq : qnat k <> 0%Qc.
Proof.
  rewrite <- qnat_0. intros H. apply qnat_inj in H. lia.
Qed.

Lemma reweight_repeat : Metrics.reweight (Fin epsilon) a (Fin x) = Fin x.
Proof.
  unfold Metrics.reweight. rewrite inliers_repeat. unfold a.
  rewrite !map_repeat, distance_repeat, weight_0, sub_diag.
  replace (f0 * f1)%fl with f0 by (unfold f0, f1; simpl; f_equal; try ring).
  rewrite sum_repeat_0, sum_repeat_1, div_0_l by apply qnat_k_neq.
  apply add_0_r.
Qed.

Lemma biweight_location_repeat :
  Metrics.biweight_location c epsilon rounds a = Fin x.
Proof.
  unfold Metrics.biweight_location.
  rewrite scale_repeat, median_column.
  induction rounds as [|n IH]; simpl; [reflexivity|].
  rewrite IH. apply reweight_repeat.
Qed.

Lemma biweight_midvariance_repeat :
  Metrics.biweight_midvariance c epsilon a = f0.
Proof.
  unfold Metrics.biweight_midvariance.
  rewrite scale_repeat, median_column, inliers_repeat. unfold a.
  rewrite !map_repeat, distance_repeat, sub_diag, repeat_length.
  replace (Metrics.sq f0 * Metrics.sq (Metrics.sq (f1 - Metrics.sq f0)))%fl
    with f0 by (unfold Metrics.sq, f0, f1; simpl; f_equal; try ring).
  replace ((f1 - Metrics.sq f0) * (f1 - of_Z 5 * Metrics.sq f0))%fl
    with f1.
  2:{ unfold Metrics.sq, f0, f1, of_Z; simpl. f_equal; try ring. }
  rewrite sum_repeat_0, sum_repeat_1.
  unfold of_nat, of_Z. fold (qnat k). rewrite mul_0_r.
  unfold Metrics.sq; simpl.
  apply div_0_l. intros H.
  apply Qcmult_integral in H. destruct H; now apply qnat_k_neq.
Qed.

End BiweightConstant.

Lemma column_repeat (j k : nat) (row : list float) :
  column j (repeat row k) = repeat (nth j row NaN) k.
Proof. unfold column. apply map_repeat. Qed.

Lemma nth_map_Fin (j : nat) (v : list Qc) :
  j < List.length v -> nth j (map Fin v) NaN = Fin (nth j v 0%Qc).
Proof.
  intros H. rewrite (nth_indep _ NaN (Fin 0%Qc))
    by (now rewrite length_map).
  apply (map_nth Fin).
Qed.

(** The columnwise result on [k] copies of one row, for an estimator
    with a known value on every column of equal numbers. *)
Lemma apply_along_axis0_repeat (f : list float -> float) (g : Qc -> float)
    (k : nat) (v : list Qc) :
  1 <= k ->
  (forall x, f (repeat (Fin x) k) = g x) ->
  apply_along_axis0 f (repeat (map Fin v) k) = map g v.
Proof.
  intros Hk Hf. unfold apply_along_axis0.
  destruct k as [|k]; [lia|]. cbn [repeat hd]. rewrite length_map.
  change (map Fin v :: repeat (map Fin v) k) with (repeat (map Fin v) (S k)).
  transitivity (map g (map (fun i => nth i v 0%Qc)
                          (seq 0 (List.length v))));
    [|now rewrite map_nth_seq_all].
  rewrite map_map. apply map_ext_in. intros j Hj. apply in_seq in Hj.
  rewrite column_repeat, nth_map_Fin by lia. apply Hf.
Qed.

(** C2.  For K >= 1 and a coverage vector of numbers, the aggregation
    of K rows equal to the vector gives, for every probe, the vector's
    value as center and 0 as spread, both numbers and not [NaN]; and a
    column of K equal numbers has that number as center and 0 as
    spread. *)
Theorem aggregation_identical_rows :
  forall (c_loc eps_loc : Qc) (rounds : nat) (c_mid eps_mid : Qc)
         (k : nat) (v : list Qc),
    1 <= k -> (0 < eps_loc)%Qc -> (0 < eps_mid)%Qc ->
    (exists matrix,
        vstack (repeat (map Fin v) k) = Ok matrix
        /\ apply_along_axis0
             (Metrics.biweight_location c_loc eps_loc rounds) matrix
           = map Fin v
        /\ apply_along_axis0 (Metrics.biweight_midvariance c_mid eps_mid)
             matrix
           = map (fun _ => f0) v)
    /\ (forall x : Qc,
          Metrics.biweight_location c_loc eps_loc rounds (repeat (Fin x) k)
          = Fin x
          /\ Metrics.biweight_midvariance c_mid eps_mid (repeat (Fin x) k)
             = f0).
Proof.
  intros c_loc eps_loc rounds c_mid eps_mid k v Hk Hloc Hmid.
  assert (Hcol : forall x : Qc,
             Metrics.biweight_location c_loc eps_loc rounds (repeat (Fin x) k)
             = Fin x
             /\ Metrics.biweight_midvariance c_mid eps_mid (repeat (Fin x) k)
                = f0).
  { intros x. split.
    - now apply biweight_location_repeat.
    - now apply biweight_midvariance_repeat. }
  split; [|exact Hcol].
  exists (repeat (map Fin v) k). split; [|split].
  - apply (vstack_rectangular _ (List.length v)).
    + destruct k; [lia | discriminate].
    + apply Forall_forall. intros r Hr. apply repeat_spec in Hr. subst.
      apply length_map.
  - apply apply_along_axis0_repeat; [exact Hk|]. intros x. apply Hcol.
  - apply apply_along_axis0_repeat; [exact Hk|]. intros x. apply Hcol.
Qed.

(** ** Worked examples *)

Lemma Fin_eq (a b : Qc) : (a == b)%Q -> Fin a = Fin b.
Proof. intros H. apply Qc_is_canon in H. now subst. Qed.

Lemma chr_y_of_distinct (chr_x : string) :
  chr_x = "chrX" \/ chr_x = "X" -> chr_x <> chr_y_of chr_x.
Proof. intros [-> | ->]; discriminate. Qed.

(** A female sample in a male-normal reference: X loses 1.0 and Y
    becomes -1.0; a male sample stays as it is. *)
Example shift_female_in_male_reference :
  col coverage
    (shift_sex_chroms Examples.guess_xx true "chrX" "chrY" Examples.sample_xx)
  = [Examples.dec 1 10; (Examples.dec 1 20 - f1)%fl; fm1]
  /\ shift_sex_chroms Examples.guess_xx true "chrX" "chrY" Examples.sample_xy
     = Examples.sample_xy.
Proof. split; reflexivity. Qed.

(** A male sample in a female-normal reference: X gains 1.0. *)
Example shift_male_in_female_reference :
  col coverage
    (shift_sex_chroms Examples.guess_xx false "chrX" "chrY" Examples.sample_xy)
  = [Examples.dec (-1) 10; (Examples.dec (-9) 10 + f1)%fl; Examples.dec (-1) 1].
Proof. reflexivity. Qed.

(** A second sample whose second probe starts elsewhere stops the
    build, whatever the estimators. *)
Example combine_probes_shifted_sample loc mid :
  combine_probes Examples.read Examples.guess_chr_x Examples.guess_xx loc mid
    ["female.cnn"; "shifted.cnn"] true true
  = Raise (RuntimeError "shifted.cnn" "female.cnn").
Proof. reflexivity. Qed.

(** Without any file the first access fails. *)
Example combine_probes_no_file read guess_chr_x guess_xx loc mid hg imn :
  combine_probes read guess_chr_x guess_xx loc mid [] hg imn
  = Raise IndexError.
Proof. reflexivity. Qed.

(** Three samples with coverages 0.0, 0.1 and -0.05 at a probe: the
    center is close to 0 and the spread small and positive. *)
Example biweight_three_samples :
  let column := [Examples.dec 0 1; Examples.dec 1 10; Examples.dec (-5) 100] in
  exists center spread_ : Qc,
    Metrics.biweight_location Examples.c_location Examples.epsilon 1 column
    = Fin center
    /\ Metrics.biweight_midvariance Examples.c_midvariance Examples.epsilon
         column = Fin spread_
    /\ (0 < center)%Qc /\ (center < Q2Qc (2 # 100))%Qc
    /\ (0 < spread_)%Qc /\ (spread_ < Q2Qc (1 # 100))%Qc.
Proof.
  exists (Q2Qc (823 # 70900)), (Q2Qc (136179123 # 30060624400)).
  split; [vm_compute; apply Fin_eq; reflexivity|].
  split; [vm_compute; apply Fin_eq; reflexivity|].
  split; [vm_compute; reflexivity|].
  split; [vm_compute; reflexivity|].
  split; vm_compute; reflexivity.
Qed.

(** The report on the example reference: three of the four targets and
    the only antitarget are flagged; the second probe of GENE3 is listed
    under a ditto mark. *)
Example warn_bad_probes_reference :
  exists t a,
    warn_bad_probes Examples.min_coverage Examples.max_spread
      Examples.max_repeat Examples.row2label Examples.reference
    = Ok (mkWarning (Some t) (Some a))
    /\ fg_count t = 3 /\ fg_pct t = Fin (Q2Qc 75)
    /\ map line_gene (fg_lines t) = ["GENE2"; "GENE3"; ljust 5 ditto]
    /\ bg_count a = 1 /\ bg_pct a = Fin (Q2Qc 100).
Proof.
  eexists. eexists. split; [cbv; reflexivity|].
  split; [reflexivity|].
  split; [apply Fin_eq; reflexivity|].
  split; [reflexivity|].
  split; [reflexivity|].
  apply Fin_eq; reflexivity.
Qed.

(** ** Instances *)

Lemma aggregation_identical_rows_witness :
  1 <= 3 /\ (0 < Examples.epsilon)%Qc
  /\ (exists matrix,
         vstack (repeat (map Fin [Q2Qc (1 # 10); Q2Qc (-1 # 2)]) 3) = Ok matrix
         /\ apply_along_axis0
              (Metrics.biweight_location Examples.c_location Examples.epsilon 2)
              matrix
            = map Fin [Q2Qc (1 # 10); Q2Qc (-1 # 2)]
         /\ apply_along_axis0
              (Metrics.biweight_midvariance Examples.c_midvariance
                 Examples.epsilon) matrix
            = map (fun _ => f0) [Q2Qc (1 # 10); Q2Qc (-1 # 2)]).
Proof.
  split; [lia|]. split; [reflexivity|].
  apply (aggregation_identical_rows Examples.c_location Examples.epsilon 2
           Examples.c_midvariance Examples.epsilon 3
           [Q2Qc (1 # 10); Q2Qc (-1 # 2)]);
    [lia | reflexivity | reflexivity].
Defined.

Lemma combine_probes_mismatch_witness :
  (forall fname, In fname ["male.cnn"] ->
     same_grid (Examples.read "female.cnn") (Examples.read fname))
  /\ exists ref,
       combine_probes Examples.read Examples.guess_chr_x Examples.guess_xx
         (Metrics.biweight_location Examples.c_location Examples.epsilon 1)
         (Metrics.biweight_midvariance Examples.c_midvariance Examples.epsilon)
         ["female.cnn"; "male.cnn"] false true
       = Ok ref
       /\ sample_id ref = "reference"
       /\ same_grid (Examples.read "female.cnn") ref.
Proof.
  assert (H : forall fname, In fname ["male.cnn"] ->
                same_grid (Examples.read "female.cnn") (Examples.read fname))
    by (intros fname [<-|[]]; repeat split).
  split; [exact H|].
  apply (combine_probes_mismatch Examples.read Examples.guess_chr_x
           Examples.guess_xx
           (Metrics.biweight_location Examples.c_location Examples.epsilon 1)
           (Metrics.biweight_midvariance Examples.c_midvariance
              Examples.epsilon)
           "female.cnn" ["male.cnn"] false true).
  exact H.
Defined.

Lemma mask_bad_probes_iff_witness :
  has_key "spread" Examples.reference = true
  /\ exists mask,
       mask_bad_probes Examples.min_coverage Examples.max_spread
         Examples.max_repeat Examples.reference = Ok mask
       /\ List.length mask = len Examples.reference.
Proof.
  split; [reflexivity|].
  destruct (mask_bad_probes_iff Examples.min_coverage Examples.max_spread
              Examples.max_repeat Examples.reference eq_refl)
    as (mask & Hmask & Hlen & _).
  exists mask. split; assumption.
Defined.

Lemma combine_probes_sex_per_sample_witness :
  (forall fname, In fname ["male.cnn"] ->
     same_grid (Examples.read "female.cnn") (Examples.read fname))
  /\ exists cnarr1,
       load_coverages Examples.read Examples.guess_chr_x Examples.guess_xx
         ["female.cnn"; "male.cnn"] true
       = Ok (cnarr1,
             [ col coverage
                 (normalise_as true true "chrX" "chrY" Examples.sample_xx);
               col coverage
                 (normalise_as false true "chrX" "chrY" Examples.sample_xy) ]).
Proof.
  assert (H : forall fname, In fname ["male.cnn"] ->
                same_grid (Examples.read "female.cnn") (Examples.read fname))
    by (intros fname [<-|[]]; repeat split).
  split; [exact H|].
  apply (combine_probes_sex_per_sample Examples.read Examples.guess_chr_x
           Examples.guess_xx
           (Metrics.biweight_location Examples.c_location Examples.epsilon 1)
           (Metrics.biweight_midvariance Examples.c_midvariance
              Examples.epsilon)
           "female.cnn" ["male.cnn"] false true H).
Defined.


Lemma warn_bad_probes_no_zero_division_witness :
  has_key "spread" Examples.reference = true
  /\ exists w,
       warn_bad_probes Examples.min_coverage Examples.max_spread
         Examples.max_repeat Examples.row2label Examples.reference = Ok w.
Proof.
  split; [reflexivity|].
  destruct (warn_bad_probes_no_zero_division Examples.min_coverage
              Examples.max_spread Examples.max_repeat Examples.row2label
              Examples.reference eq_refl) as (w & Hw & _).
  exists w. exact Hw.
Defined.

(* ================================================================== *)
(** * Further properties of the module *)

(** ** GC and repeat-masked content, continued *)

Lemma count_append (ch : ascii) (s1 s2 : string) :
  count ch (s1 ++ s2) = count ch s1 + count ch s2.
Proof.
  induction s1 as [|a s1 IH]; simpl; [reflexivity|].
  rewrite IH. lia.
Qed.

(** [calculate_gc_lo] is a function of the eight counts. *)
Lemma calculate_gc_lo_same_counts (s s' : string) :
  (forall ch, In ch bases -> count ch s = count ch s') ->
  calculate_gc_lo s = calculate_gc_lo s'.
Proof.
  intros H. unfold calculate_gc_lo.
  rewrite !(H "a"%char), !(H "t"%char), !(H "g"%char), !(H "c"%char),
          !(H "A"%char), !(H "T"%char), !(H "G"%char), !(H "C"%char)
    by (unfold bases; simpl; tauto).
  reflexivity.
Qed.

(** X1.  The result of [calculate_gc_lo] does not depend on the order of
    the sequence: two pieces joined either way give the same
    fractions. *)
Theorem calculate_gc_lo_order :
  forall s1 s2 : string,
    calculate_gc_lo (s1 ++ s2) = calculate_gc_lo (s2 ++ s1).
Proof.
  intros s1 s2. apply calculate_gc_lo_same_counts.
  intros ch _. rewrite !count_append. lia.
Qed.

(** X2.  A character other than a, t, g, c, A, T, G, C (an N, a gap, a
    line break) does not count: the sequence with and without it give
    the same fractions. *)
Theorem calculate_gc_lo_skips_other_characters :
  forall (ch : ascii) (s1 s2 : string),
    ~ In ch bases ->
    calculate_gc_lo (s1 ++ String ch s2) = calculate_gc_lo (s1 ++ s2).
Proof.
  intros ch s1 s2 Hch. apply calculate_gc_lo_same_counts.
  intros b Hb. rewrite !count_append. simpl.
  destruct (Ascii.eqb_spec ch b) as [->|_]; [contradiction | reflexivity].
Qed.

Lemma calculate_gc_lo_skips_other_characters_witness :
  ~ In "N"%char bases
  /\ calculate_gc_lo ("ACg" ++ String "N" "Tc") = calculate_gc_lo ("ACg" ++ "Tc").
Proof.
  assert (H : ~ In "N"%char bases).
  { unfold bases; simpl. intros H.
    repeat (destruct H as [H|H]; [discriminate|]). exact H. }
  split; [exact H|].
  apply (calculate_gc_lo_skips_other_characters "N" "ACg" "Tc" H).
Defined.

Lemma qnat_ratio_1 (n d : nat) :
  d <> 0 -> (qnat n / qnat d = 1)%Qc <-> n = d.
Proof.
  intros Hd.
  assert (Hne : qnat d <> 0%Qc)
    by (rewrite <- qnat_0; intros H; apply qnat_inj in H; contradiction).
  split.
  - intros H. apply qnat_inj.
    transitivity (qnat n / qnat d * qnat d)%Qc; [field; exact Hne|].
    rewrite H. ring.
  - intros ->. field. exact Hne.
Qed.

Lemma qnat_ratio_0 (n d : nat) :
  d <> 0 -> (qnat n / qnat d = 0)%Qc <-> n = 0.
Proof.
  intros Hd.
  assert (Hne : qnat d <> 0%Qc)
    by (rewrite <- qnat_0; intros H; apply qnat_inj in H; contradiction).
  split.
  - intros H. apply qnat_inj. rewrite qnat_0.
    transitivity (qnat n / qnat d * qnat d)%Qc; [field; exact Hne|].
    rewrite H. ring.
  - intros ->. rewrite qnat_0. field. exact Hne.
Qed.

Lemma Fin_inj (a b : Qc) : Fin a = Fin b <-> a = b.
Proof. split; [intros H; now injection H | now intros ->]. Qed.

(** The counts of the upper-case and of the lower-case bases add up. *)
Lemma count_in_case (s : string) :
  count_in bases s
  = count_in ["a"; "t"; "g"; "c"]%char s + count_in ["A"; "T"; "G"; "C"]%char s.
Proof.
  unfold bases. rewrite !count_in_cons, !count_in_nil by reflexivity. lia.
Qed.

Lemma count_in_gc_at (s : string) :
  count_in bases s
  = count_in ["g"; "c"; "G"; "C"]%char s + count_in ["a"; "t"; "A"; "T"]%char s.
Proof.
  unfold bases. rewrite !count_in_cons, !count_in_nil by reflexivity. lia.
Qed.

(** X3.  On a sequence with at least one base, the repeat-masked
    fraction is 1.0 exactly when no base is upper case and 0.0 exactly
    when no base is lower case; the GC fraction is 1.0 exactly when the
    sequence has no A or T and 0.0 exactly when it has no G or C. *)
Theorem calculate_gc_lo_extremes :
  forall s : string,
    count_in bases s <> 0 ->
    (snd (calculate_gc_lo s) = f1
     <-> count_in ["A"; "T"; "G"; "C"]%char s = 0)
    /\ (snd (calculate_gc_lo s) = f0
        <-> count_in ["a"; "t"; "g"; "c"]%char s = 0)
    /\ (fst (calculate_gc_lo s) = f1
        <-> count_in ["a"; "t"; "A"; "T"]%char s = 0)
    /\ (fst (calculate_gc_lo s) = f0
        <-> count_in ["g"; "c"; "G"; "C"]%char s = 0).
Proof.
  intros s Htot.
  pose proof (calculate_gc_lo_counts s) as Hs. cbv zeta in Hs.
  fold bases in Hs.
  destruct (Nat.eqb_spec (count_in bases s) 0) as [E|_]; [contradiction|].
  rewrite Hs. cbn [fst snd]. unfold f0, f1.
  rewrite !Fin_inj, !qnat_ratio_1, !qnat_ratio_0 by exact Htot.
  pose proof (count_in_case s). pose proof (count_in_gc_at s).
  repeat split; lia.
Qed.

Lemma calculate_gc_lo_extremes_witness :
  count_in bases "acgNt" <> 0
  /\ (snd (calculate_gc_lo "acgNt") = f1
      <-> count_in ["A"; "T"; "G"; "C"]%char "acgNt" = 0).
Proof.
  assert (H : count_in bases "acgNt" <> 0) by discriminate.
  split; [exact H|].
  apply (calculate_gc_lo_extremes "acgNt" H).
Defined.

(** ** Genome statistics of the probes *)

Lemma calculate_gc_lo_unit (s : string) :
  unit_fraction (fst (calculate_gc_lo s))
  /\ unit_fraction (snd (calculate_gc_lo s)).
Proof.
  pose proof (calculate_gc_lo_counts s) as Hs. cbv zeta in Hs.
  fold bases in Hs. rewrite Hs.
  destruct (Nat.eqb_spec (count_in bases s) 0) as [E|E]; cbn [fst snd].
  - split; exists 0%Qc; repeat split; try apply Qcle_refl; discriminate.
  - pose proof (count_in_case s). pose proof (count_in_gc_at s).
    split; eexists; (split; [reflexivity|]);
      apply qnat_ratio_bounds; auto; lia.
Qed.

(** X4.  When the extraction gives one subsequence for every region,
    [get_fasta_stats] fails on a profile without probes, where nothing
    can be unpacked; on any other profile it returns a GC value and a
    repeat-masked value for every probe, in the order of the probes:
    the fractions of the subsequence at that probe, both numbers
    between 0 and 1. *)
Theorem get_fasta_stats_per_probe :
  forall (fasta_extract_regions :
            string -> list (string * Z * Z) -> list string)
         (probes : CNA) (fa_fname : string),
    (forall coords,
        List.length (fasta_extract_regions fa_fname coords)
        = List.length coords) ->
    let subseqs := fasta_extract_regions fa_fname (_cna2coords probes) in
    (len probes = 0 ->
     get_fasta_stats fasta_extract_regions probes fa_fname = Raise ValueError)
    /\ (len probes <> 0 ->
        get_fasta_stats fasta_extract_regions probes fa_fname
        = Ok (map (fun s => fst (calculate_gc_lo s)) subseqs,
              map (fun s => snd (calculate_gc_lo s)) subseqs)
        /\ List.length subseqs = len probes
        /\ Forall (fun s => unit_fraction (fst (calculate_gc_lo s))
                            /\ unit_fraction (snd (calculate_gc_lo s)))
                  subseqs).
Proof.
  intros extract probes fa Hlen subseqs.
  assert (Hn : List.length subseqs = len probes).
  { unfold subseqs. rewrite Hlen. unfold _cna2coords, col, len.
    rewrite !length_combine, !length_map. lia. }
  unfold get_fasta_stats. fold (_cna2coords probes). fold subseqs.
  split.
  - intros E. rewrite E in Hn. apply length_zero_iff_nil in Hn.
    now rewrite Hn.
  - intros E. split; [|split; [exact Hn|]].
    + destruct subseqs as [|s l]; [simpl in Hn; congruence|].
      unfold unzip_pairs. cbn [map]. rewrite !map_map. reflexivity.
    + apply Forall_forall. intros s _. apply calculate_gc_lo_unit.
Qed.

Lemma get_fasta_stats_per_probe_witness :
  (forall coords : list (string * Z * Z),
      List.length (map (fun _ => "ACgtNN") coords) = List.length coords)
  /\ get_fasta_stats (fun _ coords => map (fun _ => "ACgtNN") coords)
       (mkCNA "none" false false false []) "genome.fa"
     = Raise ValueError.
Proof.
  assert (H : forall coords : list (string * Z * Z),
             List.length (map (fun _ => "ACgtNN") coords)
             = List.length coords)
    by (intros coords; apply length_map).
  split; [exact H|].
  apply (get_fasta_stats_per_probe
           (fun _ coords => map (fun _ => "ACgtNN") coords)
           (mkCNA "none" false false false []) "genome.fa" H).
  reflexivity.
Defined.

(** ** Regions of a reference *)

Lemma combine_map {A B C} (f : A -> B) (g : A -> C) (l : list A) :
  combine (map f l) (map g l) = map (fun x => (f x, g x)) l.
Proof. induction l as [|x l IH]; simpl; [reflexivity | now rewrite IH]. Qed.

Lemma _cna2coords_rows (cnarr : CNA) :
  _cna2coords cnarr
  = map (fun p => (chromosome p, start p, end_ p)) (data cnarr).
Proof.
  unfold _cna2coords, col. now rewrite !combine_map.
Qed.

Lemma _cna2regions_rows (cnarr : CNA) :
  _cna2regions cnarr
  = map (fun p => (chromosome p, start p, end_ p, gene p)) (data cnarr).
Proof.
  unfold _cna2regions, col. now rewrite !combine_map.
Qed.

Lemma _ref_split_targets_rows (ref_arr : CNA) :
  data (fst (_ref_split_targets ref_arr))
  = filter (fun p => negb (is_background p)) (data ref_arr)
  /\ data (snd (_ref_split_targets ref_arr))
     = filter is_background (data ref_arr).
Proof.
  unfold _ref_split_targets, select_rows, eq_mask, col. cbn [fst snd data set_data].
  rewrite !map_map. split; apply select_map_filter.
Qed.

Lemma filter_partition_Permutation {A} (f : A -> bool) (l : list A) :
  Permutation (filter (fun x => negb (f x)) l ++ filter f l) l.
Proof.
  induction l as [|x l IH]; simpl; [constructor|].
  destruct (f x); simpl.
  - apply Permutation_sym, Permutation_cons_app, Permutation_sym, IH.
  - now constructor.
Qed.

Lemma filter_partition_length {A} (f : A -> bool) (l : list A) :
  List.length (filter (fun x => negb (f x)) l) + List.length (filter f l)
  = List.length l.
Proof.
  rewrite <- length_app.
  apply Permutation_length, filter_partition_Permutation.
Qed.

(** X5.  [_ref_split_targets] splits a reference without losing,
    repeating or reordering a probe: the targets are the probes whose
    gene is not Background and the antitargets those whose gene is
    Background, each in the order of the reference; together they are
    the probes of the reference. *)
Theorem ref_split_targets_partition :
  forall ref_arr : CNA,
    let targets := fst (_ref_split_targets ref_arr) in
    let antitargets := snd (_ref_split_targets ref_arr) in
    data targets = filter (fun p => negb (is_background p)) (data ref_arr)
    /\ data antitargets = filter is_background (data ref_arr)
    /\ Permutation (data targets ++ data antitargets) (data ref_arr)
    /\ len targets + len antitargets = len ref_arr.
Proof.
  intros ref_arr targets antitargets.
  destruct (_ref_split_targets_rows ref_arr) as [Ht Ha].
  fold targets in Ht. fold antitargets in Ha.
  split; [exact Ht|]. split; [exact Ha|].
  unfold len. rewrite Ht, Ha.
  split; [apply filter_partition_Permutation|].
  apply filter_partition_length.
Qed.

(** The intervals of a flat reference are those it was built from. *)
Lemma bed2probes_regions parse_regions fbase bed_fname :
  map (fun p => (chromosome p, start p, end_ p, gene p))
      (data (bed2probes parse_regions fbase bed_fname))
  = parse_regions bed_fname.
Proof.
  rewrite bed2probes_rows, map_map.
  rewrite <- (map_id (parse_regions bed_fname)) at 2.
  apply map_ext. intros [[[chrom s] e] name]. reflexivity.
Qed.

Lemma filter_map_swap {A B} (f : A -> B) (g : B -> bool) (l : list A) :
  filter g (map f l) = map f (filter (fun x => g (f x)) l).
Proof.
  induction l as [|x l IH]; simpl; [reflexivity|].
  destruct (g (f x)); simpl; now rewrite IH.
Qed.

(** X6.  Reading the regions back from a flat reference returns the
    intervals it was built from: [reference2regions] of [bed2probes]
    gives the intervals whose name is not Background, then those whose
    name is Background, each in the order of the file; with
    [coord_only] the names are dropped. *)
Theorem reference2regions_bed2probes :
  forall (parse_regions : string -> list (string * Z * Z * string))
         (fbase : string -> string) (bed_fname : string),
    let regions := parse_regions bed_fname in
    let is_bg (r : string * Z * Z * string) :=
      String.eqb (snd r) "Background" in
    let flat := bed2probes parse_regions fbase bed_fname in
    _cna2regions flat = regions
    /\ reference2regions flat false
       = (Regions (filter (fun r => negb (is_bg r)) regions),
          Regions (filter is_bg regions))
    /\ reference2regions flat true
       = (Coords (map fst (filter (fun r => negb (is_bg r)) regions)),
          Coords (map fst (filter is_bg regions))).
Proof.
  intros parse_regions fbase bed_fname regions is_bg flat.
  assert (Hback : map (fun p => (chromosome p, start p, end_ p, gene p))
                      (data flat) = regions)
    by apply bed2probes_regions.
  destruct (_ref_split_targets_rows flat) as [Ht Ha].
  assert (Hneg : map (fun p => (chromosome p, start p, end_ p, gene p))
                     (filter (fun p => negb (is_background p)) (data flat))
                 = filter (fun r => negb (is_bg r)) regions)
    by (rewrite <- Hback, filter_map_swap; reflexivity).
  assert (Hbg : map (fun p => (chromosome p, start p, end_ p, gene p))
                    (filter is_background (data flat))
                = filter is_bg regions)
    by (rewrite <- Hback, filter_map_swap; reflexivity).
  split; [|split].
  - now rewrite _cna2regions_rows.
  - unfold reference2regions. cbn [fst snd].
    rewrite !_cna2regions_rows, Ht, Ha, Hneg, Hbg. reflexivity.
  - unfold reference2regions. cbn [fst snd].
    rewrite !_cna2coords_rows, Ht, Ha, <- Hneg, <- Hbg, !map_map.
    reflexivity.
Qed.

(** ** The bad-probe mask, continued *)

Lemma mask_bad_probes_is_bad mn mx mr probes :
  has_spread probes = true ->
  mask_bad_probes mn mx mr probes
  = Ok (map (is_bad mn mx mr (has_rmask probes)) (data probes)).
Proof. apply mask_bad_probes_rows. Qed.

Lemma mask_bad_probes_no_spread mn mx mr probes :
  has_spread probes = false ->
  mask_bad_probes mn mx mr probes = Raise (KeyError "spread").
Proof.
  intros H. unfold mask_bad_probes, getitem, has_key; simpl.
  now rewrite H.
Qed.

Lemma ltb_trans_le (x : float) (a b : Qc) :
  (a <= b)%Qc -> (x <? Fin a)%fl = true -> (x <? Fin b)%fl = true.
Proof.
  intros Hab. destruct x as [q|]; [|discriminate].
  rewrite !ltb_Fin. intros H. eapply Qclt_le_trans; eassumption.
Qed.

Lemma gtb_trans_le (x : float) (a b : Qc) :
  (a <= b)%Qc -> (x >? Fin b)%fl = true -> (x >? Fin a)%fl = true.
Proof.
  intros Hab. unfold Float.gtb. destruct x as [q|]; [|discriminate].
  rewrite !ltb_Fin. intros H. eapply Qcle_lt_trans; eassumption.
Qed.

Lemma count_true_le {A} (f g : A -> bool) (l : list A) :
  (forall x, f x = true -> g x = true) ->
  count_true (map f l) <= count_true (map g l).
Proof.
  intros H. rewrite !count_true_map.
  induction l as [|x l IH]; simpl; [lia|].
  destruct (f x) eqn:E.
  - rewrite (H x E). simpl. lia.
  - destruct (g x); simpl; lia.
Qed.

(** X7.  The filter is monotone in its thresholds: with a lower minimal
    coverage, a higher maximal spread and a higher maximal repeat
    fraction, every probe that is flagged was flagged before, so no
    more probes are flagged. *)
Theorem mask_bad_probes_monotone :
  forall (mn mn' mx mx' mr mr' : Qc) (probes : CNA),
    has_key "spread" probes = true ->
    (mn' <= mn)%Qc -> (mx <= mx')%Qc -> (mr <= mr')%Qc ->
    exists mask mask',
      mask_bad_probes (Fin mn) (Fin mx) (Fin mr) probes = Ok mask
      /\ mask_bad_probes (Fin mn') (Fin mx') (Fin mr') probes = Ok mask'
      /\ (forall i, nth_error mask' i = Some true ->
                    nth_error mask i = Some true)
      /\ count_true mask' <= count_true mask.
Proof.
  intros mn mn' mx mx' mr mr' probes Hs Hmn Hmx Hmr.
  change (has_spread probes = true) in Hs.
  assert (Himp : forall p,
             is_bad (Fin mn') (Fin mx') (Fin mr') (has_rmask probes) p = true ->
             is_bad (Fin mn) (Fin mx) (Fin mr) (has_rmask probes) p = true).
  { intros p. unfold is_bad.
    rewrite !orb_true_iff, !andb_true_iff.
    intros [[H|H]|[Hr H]].
    - left; left. eapply ltb_trans_le; eassumption.
    - left; right. eapply gtb_trans_le; eassumption.
    - right. split; [exact Hr|]. eapply gtb_trans_le; eassumption. }
  do 2 eexists.
  split; [now apply mask_bad_probes_is_bad|].
  split; [now apply mask_bad_probes_is_bad|].
  split.
  - intros i. rewrite !nth_error_map.
    destruct (nth_error (data probes) i) as [p|]; [|discriminate].
    simpl. intros H. injection H as H. now rewrite (Himp p H).
  - now apply count_true_le.
Qed.

Lemma mask_bad_probes_monotone_witness :
  has_key "spread" Examples.reference = true
  /\ (Q2Qc (-6) <= Q2Qc (-5))%Qc /\ (Q2Qc 1 <= Q2Qc 2)%Qc
  /\ (Q2Qc (1 # 2) <= Q2Qc (1 # 2))%Qc
  /\ exists mask mask',
       mask_bad_probes (Fin (Q2Qc (-5))) (Fin (Q2Qc 1)) (Fin (Q2Qc (1 # 2)))
         Examples.reference = Ok mask
       /\ mask_bad_probes (Fin (Q2Qc (-6))) (Fin (Q2Qc 2))
            (Fin (Q2Qc (1 # 2))) Examples.reference = Ok mask'
       /\ (forall i, nth_error mask' i = Some true ->
                     nth_error mask i = Some true)
       /\ count_true mask' <= count_true mask.
Proof.
  assert (H1 : (Q2Qc (-6) <= Q2Qc (-5))%Qc) by discriminate.
  assert (H2 : (Q2Qc 1 <= Q2Qc 2)%Qc) by discriminate.
  assert (H3 : (Q2Qc (1 # 2) <= Q2Qc (1 # 2))%Qc) by discriminate.
  split; [reflexivity|]. split; [exact H1|]. split; [exact H2|].
  split; [exact H3|].
  apply (mask_bad_probes_monotone (Q2Qc (-5)) (Q2Qc (-6)) (Q2Qc 1) (Q2Qc 2)
           (Q2Qc (1 # 2)) (Q2Qc (1 # 2)) Examples.reference eq_refl H1 H2 H3).
Defined.

(** X8.  A value that is not a number never flags a probe: whatever the
    thresholds, a probe whose coverage, spread and rmask are all [NaN]
    passes the filter. *)
Theorem mask_bad_probes_nan_passes :
  forall (mn mx mr : float) (probes : CNA) (i : nat) (p : probe),
    has_key "spread" probes = true ->
    nth_error (data probes) i = Some p ->
    coverage p = NaN -> spread p = NaN -> rmask p = NaN ->
    exists mask,
      mask_bad_probes mn mx mr probes = Ok mask
      /\ nth_error mask i = Some false.
Proof.
  intros mn mx mr probes i p Hs Hi Hc Hsp Hr.
  change (has_spread probes = true) in Hs.
  eexists. split; [now apply mask_bad_probes_is_bad|].
  rewrite nth_error_map, Hi. simpl. f_equal.
  unfold is_bad, Float.gtb. rewrite Hc, Hsp, Hr.
  rewrite !ltb_NaN_r. simpl. now rewrite andb_false_r.
Qed.

Lemma mask_bad_probes_nan_passes_witness :
  exists mask,
    mask_bad_probes Examples.min_coverage Examples.max_spread
      Examples.max_repeat
      (mkCNA "nan" false true true
         [mkProbe "chr1" 0 10 "GENE1" NaN f0 NaN NaN]) = Ok mask
    /\ nth_error mask 0 = Some false.
Proof.
  apply (mask_bad_probes_nan_passes Examples.min_coverage Examples.max_spread
           Examples.max_repeat
           (mkCNA "nan" false true true
              [mkProbe "chr1" 0 10 "GENE1" NaN f0 NaN NaN])
           0 (mkProbe "chr1" 0 10 "GENE1" NaN f0 NaN NaN));
    reflexivity.
Defined.

(** X9.  The spread column is the only one the filter and its report
    cannot do without: [mask_bad_probes] and [warn_bad_probes] fail
    exactly on a profile that has no spread column, whether it has an
    rmask column or not. *)
Theorem bad_probes_need_spread :
  forall (mn mx mr : float) (row2label : probe -> string) (probes : CNA),
    ((exists e, mask_bad_probes mn mx mr probes = Raise e)
     <-> has_key "spread" probes = false)
    /\ ((exists e, warn_bad_probes mn mx mr row2label probes = Raise e)
        <-> has_key "spread" probes = false).
Proof.
  intros mn mx mr row2label probes.
  change (has_key "spread" probes) with (has_spread probes).
  unfold warn_bad_probes.
  destruct (has_spread probes) eqn:Hs.
  - rewrite (mask_bad_probes_is_bad mn mx mr probes Hs).
    cbn [bind Monad_result Monad_either Ok ret].
    split; (split; [intros [e H]; discriminate | discriminate]).
  - rewrite (mask_bad_probes_no_spread mn mx mr probes Hs).
    cbn [bind Monad_result Monad_either Raise].
    split; (split; [reflexivity | intros _; eexists; reflexivity]).
Qed.

(** ** The report of the bad probes, continued *)

Lemma filter_andb {A} (f g : A -> bool) (l : list A) :
  filter g (filter f l) = filter (fun x => f x && g x) l.
Proof.
  induction l as [|x l IH]; simpl; [reflexivity|].
  destruct (f x); simpl; [|exact IH].
  destruct (g x); now rewrite IH.
Qed.

(** The report in closed form, on a profile with a spread column. *)
Lemma warn_bad_probes_closed mn mx mr row2label probes :
  has_spread probes = true ->
  let bt := bad_targets mn mx mr probes in
  let ba := bad_antitargets mn mx mr probes in
  warn_bad_probes mn mx mr row2label probes
  = Ok (mkWarning
          (if Nat.ltb 0 (List.length bt) then
             Some (mkTargetsWarning (List.length bt)
                     (of_nat (100 * List.length bt)
                      / of_nat (count_true
                                  (ne_mask (col gene probes) "Background")))%fl
                     (listing (has_rmask probes) (max_len (map gene bt))
                        (max_len (map row2label bt)) None
                        (combine (map row2label bt) bt)))
           else None)
          (if Nat.ltb 0 (List.length ba) then
             Some (mkAntitargetsWarning (List.length ba)
                     (of_nat (100 * List.length ba)
                      / of_nat (count_true
                                  (eq_mask (col gene probes) "Background")))%fl)
           else None)).
Proof.
  intros Hs bt ba. unfold warn_bad_probes.
  rewrite (mask_bad_probes_is_bad mn mx mr probes Hs).
  cbn [bind Monad_result Monad_either Ok ret].
  unfold select_rows, col, len. cbn [data set_data].
  rewrite select_fg, select_bg, select_map_filter, !filter_andb.
  reflexivity.
Qed.

Lemma bad_probes_split mn mx mr probes :
  List.length (bad_targets mn mx mr probes)
  + List.length (bad_antitargets mn mx mr probes)
  = count_true (map (is_bad mn mx mr (has_rmask probes)) (data probes)).
Proof.
  rewrite count_true_map. unfold bad_targets, bad_antitargets.
  rewrite <- !filter_andb.
  apply (filter_partition_length is_background).
Qed.

(** X10.  The report accounts for every flagged probe once: the targets
    and the antitargets it counts add up to the number of flags of the
    mask, and it is empty exactly when no probe is flagged. *)
Theorem warn_bad_probes_counts_all :
  forall (mn mx mr : float) (row2label : probe -> string) (probes : CNA),
    has_key "spread" probes = true ->
    exists w mask,
      warn_bad_probes mn mx mr row2label probes = Ok w
      /\ mask_bad_probes mn mx mr probes = Ok mask
      /\ reported_targets w + reported_antitargets w = count_true mask
      /\ (targets w = None /\ antitargets w = None <-> count_true mask = 0).
Proof.
  intros mn mx mr row2label probes Hs.
  change (has_spread probes = true) in Hs.
  do 2 eexists.
  split; [now apply warn_bad_probes_closed|].
  split; [now apply mask_bad_probes_is_bad|].
  rewrite <- bad_probes_split.
  unfold reported_targets, reported_antitargets. cbn [targets antitargets].
  destruct (Nat.ltb_spec 0 (List.length (bad_targets mn mx mr probes)));
    destruct (Nat.ltb_spec 0 (List.length (bad_antitargets mn mx mr probes)));
    cbn [fg_count bg_count]; split; try lia;
    try (split; [intros [? ?]; discriminate | lia]);
    try (split; [reflexivity | lia]).
  split; [intros _; lia | intros _; split; reflexivity].
Qed.

Lemma warn_bad_probes_counts_all_witness :
  has_key "spread" Examples.reference = true
  /\ exists w mask,
       warn_bad_probes Examples.min_coverage Examples.max_spread
         Examples.max_repeat Examples.row2label Examples.reference = Ok w
       /\ mask_bad_probes Examples.min_coverage Examples.max_spread
            Examples.max_repeat Examples.reference = Ok mask
       /\ reported_targets w + reported_antitargets w = count_true mask.
Proof.
  split; [reflexivity|].
  destruct (warn_bad_probes_counts_all Examples.min_coverage
              Examples.max_spread Examples.max_repeat Examples.row2label
              Examples.reference eq_refl) as (w & mask & Hw & Hm & Hc & _).
  exists w, mask. repeat split; assumption.
Defined.

Lemma qnat_mult (n m : nat) : qnat (n * m) = (qnat n * qnat m)%Qc.
Proof.
  apply Qc_is_canon. unfold qnat, Qcmult, Q2Qc. cbn [this].
  rewrite !Qred_correct, Nat2Z.inj_mul, inject_Z_mult. reflexivity.
Qed.

Lemma filter_andb_length {A} (f g : A -> bool) (l : list A) :
  List.length (filter (fun x => f x && g x) l) <= List.length (filter g l).
Proof.
  induction l as [|x l IH]; simpl; [lia|].
  destruct (f x), (g x); simpl; lia.
Qed.

(** A percentage of a part of a whole lies in (0, 100]. *)
Lemma percentage_bounds (n d : nat) :
  0 < n -> n <= d ->
  (0 < qnat (100 * n) / qnat d)%Qc
  /\ (qnat (100 * n) / qnat d <= qnat 100)%Qc.
Proof.
  intros Hn Hnd.
  assert (Hpos : (0 < qnat d)%Qc) by (apply qnat_pos; lia).
  assert (Hne : qnat d <> 0%Qc) by now apply Qclt_neq.
  assert (Hmul : (qnat (100 * n) / qnat d * qnat d = qnat (100 * n))%Qc)
    by (field; exact Hne).
  split.
  - apply Qcnot_le_lt. intros Hle.
    apply (Qcmult_le_compat_r _ _ (qnat d)) in Hle;
      [|now apply Qclt_le_weak].
    rewrite Hmul in Hle.
    replace (0 * qnat d)%Qc with 0%Qc in Hle by ring.
    apply (Qcle_not_lt _ _ Hle). apply qnat_pos. lia.
  - apply (Qcmult_lt_0_le_reg_r _ _ (qnat d) Hpos).
    rewrite Hmul, <- qnat_mult. apply qnat_le. nia.
Qed.

(** X11.  A percentage of the report is a number above 0 and at most
    100. *)
Theorem warn_bad_probes_percentages_in_range :
  forall (mn mx mr : float) (row2label : probe -> string) (probes : CNA),
    has_key "spread" probes = true ->
    exists w,
      warn_bad_probes mn mx mr row2label probes = Ok w
      /\ (forall t, targets w = Some t ->
            exists q, fg_pct t = Fin q /\ (0 < q)%Qc /\ (q <= qnat 100)%Qc)
      /\ (forall a, antitargets w = Some a ->
            exists q, bg_pct a = Fin q /\ (0 < q)%Qc /\ (q <= qnat 100)%Qc).
Proof.
  intros mn mx mr row2label probes Hs.
  change (has_spread probes = true) in Hs.
  eexists. split; [now apply warn_bad_probes_closed|].
  cbn [targets antitargets].
  set (bt := bad_targets mn mx mr probes).
  set (ba := bad_antitargets mn mx mr probes).
  assert (Hfg : List.length bt
                <= count_true (ne_mask (col gene probes) "Background")).
  { unfold ne_mask, col. rewrite map_map, count_true_map.
    apply filter_andb_length. }
  assert (Hbg : List.length ba
                <= count_true (eq_mask (col gene probes) "Background")).
  { unfold eq_mask, col. rewrite map_map, count_true_map.
    apply filter_andb_length. }
  split.
  - intros t Ht.
    destruct (Nat.ltb_spec 0 (List.length bt)); [|discriminate].
    injection Ht as <-. cbn [fg_pct].
    eexists. split; [apply div_of_nat; lia|].
    apply percentage_bounds; assumption.
  - intros a Ha.
    destruct (Nat.ltb_spec 0 (List.length ba)); [|discriminate].
    injection Ha as <-. cbn [bg_pct].
    eexists. split; [apply div_of_nat; lia|].
    apply percentage_bounds; assumption.
Qed.

Lemma warn_bad_probes_percentages_in_range_witness :
  has_key "spread" Examples.reference = true
  /\ exists w,
       warn_bad_probes Examples.min_coverage Examples.max_spread
         Examples.max_repeat Examples.row2label Examples.reference = Ok w
       /\ (forall t, targets w = Some t ->
             exists q, fg_pct t = Fin q /\ (0 < q)%Qc /\ (q <= qnat 100)%Qc).
Proof.
  split; [reflexivity|].
  destruct (warn_bad_probes_percentages_in_range Examples.min_coverage
              Examples.max_spread Examples.max_repeat Examples.row2label
              Examples.reference eq_refl) as (w & Hw & Ht & _).
  exists w. split; assumption.
Defined.

(** *** The listing *)

Lemma listing_nth (with_rmask : bool) (gene_cols chrom_cols : nat)
    (label : probe -> string) (rows : list probe) :
  forall (last_gene : option string) (i : nat) (p : probe),
    nth_error rows i = Some p ->
    nth_error (listing with_rmask gene_cols chrom_cols last_gene
                 (combine (map label rows) rows)) i
    = Some (mkLine
              (ljust gene_cols
                 (match match i with
                        | O => last_gene
                        | S j => option_map gene (nth_error rows j)
                        end with
                  | Some g => if String.eqb (gene p) g then ditto else gene p
                  | None => gene p
                  end))
              (ljust chrom_cols (label p)) (coverage p) (spread p)
              (if with_rmask then Some (rmask p) else None)).
Proof.
  induction rows as [|p0 rows IH]; intros last_gene i p Hi.
  - destruct i; discriminate.
  - cbn [map combine listing].
    destruct i as [|j].
    + injection Hi as <-. cbn [nth_error]. f_equal. f_equal.
      destruct last_gene as [g|]; reflexivity.
    + cbn [nth_error] in Hi |- *.
      assert (Hlast : (if match last_gene with
                          | Some g => String.eqb (gene p0) g
                          | None => false
                          end
                       then last_gene else Some (gene p0))
                      = Some (gene p0)).
      { destruct last_gene as [g|]; [|reflexivity].
        destruct (String.eqb_spec (gene p0) g) as [->|_]; reflexivity. }
      rewrite Hlast, (IH (Some (gene p0)) j p Hi).
      destruct j; reflexivity.
Qed.

Lemma listing_length with_rmask gene_cols chrom_cols last_gene rows :
  List.length (listing with_rmask gene_cols chrom_cols last_gene rows)
  = List.length rows.
Proof.
  revert last_gene. induction rows as [|[label p] rows IH]; intros last_gene;
    simpl; [reflexivity | now rewrite IH].
Qed.

Lemma combine_labels_length {A} (label : A -> string) (rows : list A) :
  List.length (combine (map label rows) rows) = List.length rows.
Proof. rewrite length_combine, length_map. lia. Qed.

(** X12.  The report has a block for the targets exactly when a target
    is flagged, and the listing of the block has one line for every
    flagged target, in the order of the profile; the line shows the
    coverage and the spread of the probe, its rmask exactly when the
    profile has an rmask column, and its label padded to the width of
    the longest label. *)
Theorem warn_bad_probes_lines :
  forall (mn mx mr : float) (row2label : probe -> string) (probes : CNA),
    has_key "spread" probes = true ->
    let bad := bad_targets mn mx mr probes in
    exists w,
      warn_bad_probes mn mx mr row2label probes = Ok w
      /\ (targets w = None <-> bad = [])
      /\ (bad <> [] ->
          exists t,
            targets w = Some t
            /\ fg_count t = List.length bad
            /\ List.length (fg_lines t) = List.length bad
            /\ forall i p,
                 nth_error bad i = Some p ->
                 exists l,
                   nth_error (fg_lines t) i = Some l
                   /\ line_coverage l = coverage p
                   /\ line_spread l = spread p
                   /\ line_rmask l
                      = (if has_key "rmask" probes then Some (rmask p)
                         else None)
                   /\ line_label l
                      = ljust (max_len (map row2label bad)) (row2label p)).
Proof.
  intros mn mx mr row2label probes Hs bad.
  change (has_spread probes = true) in Hs.
  eexists. split; [now apply warn_bad_probes_closed|].
  cbn [targets]. fold bad.
  destruct bad as [|p0 bad'] eqn:Hbad.
  - split; [split; reflexivity|]. intros H. now contradiction H.
  - rewrite <- Hbad. replace (Nat.ltb 0 (List.length bad)) with true
      by (rewrite Hbad; reflexivity).
    split; [split; [discriminate | rewrite Hbad; discriminate]|].
    intros _. eexists. split; [reflexivity|]. cbn [fg_count fg_lines].
    split; [reflexivity|].
    split; [now rewrite listing_length, combine_labels_length|].
    intros i p Hi. eexists.
    split; [apply (listing_nth _ _ _ row2label bad None i p Hi)|].
    repeat split.
Qed.

Lemma warn_bad_probes_lines_witness :
  has_key "spread" Examples.reference = true
  /\ bad_targets Examples.min_coverage Examples.max_spread
       Examples.max_repeat Examples.reference <> []
  /\ exists w,
       warn_bad_probes Examples.min_coverage Examples.max_spread
         Examples.max_repeat Examples.row2label Examples.reference = Ok w
       /\ exists t,
            targets w = Some t
            /\ fg_count t
               = List.length (bad_targets Examples.min_coverage
                                Examples.max_spread Examples.max_repeat
                                Examples.reference).
Proof.
  assert (Hbad : bad_targets Examples.min_coverage Examples.max_spread
                   Examples.max_repeat Examples.reference <> [])
    by discriminate.
  split; [reflexivity|]. split; [exact Hbad|].
  destruct (warn_bad_probes_lines Examples.min_coverage Examples.max_spread
              Examples.max_repeat Examples.row2label Examples.reference
              eq_refl) as (w & Hw & _ & Ht).
  destruct (Ht Hbad) as (t & Et & Hc & _).
  exists w. split; [exact Hw|]. exists t. split; assumption.
Defined.

(** X13.  In the listing a gene is named on the first of its consecutive
    lines only: the gene column of a line shows the ditto mark when the
    flagged target before it has the same gene, and the gene of the
    probe otherwise, padded to the width of the longest gene. *)
Theorem warn_bad_probes_ditto :
  forall (mn mx mr : float) (row2label : probe -> string) (probes : CNA),
    has_key "spread" probes = true ->
    let bad := bad_targets mn mx mr probes in
    exists w,
      warn_bad_probes mn mx mr row2label probes = Ok w
      /\ forall t i p,
           targets w = Some t ->
           nth_error bad i = Some p ->
           exists l,
             nth_error (fg_lines t) i = Some l
             /\ line_gene l
                = ljust (max_len (map gene bad)) (shown_gene bad i p).
Proof.
  intros mn mx mr row2label probes Hs bad.
  change (has_spread probes = true) in Hs.
  eexists. split; [now apply warn_bad_probes_closed|].
  cbn [targets]. fold bad. intros t i p Ht Hi.
  destruct (Nat.ltb 0 (List.length bad)); [|discriminate].
  injection Ht as <-. cbn [fg_lines].
  eexists.
  split; [apply (listing_nth _ _ _ row2label bad None i p Hi)|].
  cbn [line_gene]. f_equal. unfold shown_gene, previous.
  destruct i as [|j]; [reflexivity|].
  destruct (nth_error bad j); reflexivity.
Qed.

Lemma warn_bad_probes_ditto_witness :
  has_key "spread" Examples.reference = true
  /\ exists w,
       warn_bad_probes Examples.min_coverage Examples.max_spread
         Examples.max_repeat Examples.row2label Examples.reference = Ok w
       /\ forall t, targets w = Some t ->
            exists l,
              nth_error (fg_lines t) 2 = Some l
              /\ line_gene l = ljust 5 ditto.
Proof.
  split; [reflexivity|].
  destruct (warn_bad_probes_ditto Examples.min_coverage Examples.max_spread
              Examples.max_repeat Examples.row2label Examples.reference
              eq_refl) as (w & Hw & Ht).
  exists w. split; [exact Hw|]. intros t E.
  exact (Ht t 2 _ E eq_refl).
Defined.

(** *** Widths *)

Lemma string_length_append (s1 s2 : string) :
  String.length (s1 ++ s2) = String.length s1 + String.length s2.
Proof. induction s1 as [|a s1 IH]; simpl; [reflexivity | now rewrite IH]. Qed.

Lemma string_length_of_list (l : list ascii) :
  String.length (string_of_list_ascii l) = List.length l.
Proof. induction l as [|a l IH]; simpl; [reflexivity | now rewrite IH]. Qed.

Lemma ljust_length (width : nat) (s : string) :
  String.length (ljust width s) = Nat.max width (String.length s).
Proof.
  unfold ljust.
  rewrite string_length_append, string_length_of_list, repeat_length. lia.
Qed.

Lemma max_len_bound (s : string) (strings : list string) :
  In s strings -> String.length s <= max_len strings.
Proof.
  unfold max_len. induction strings as [|s' strings IH]; simpl; [tauto|].
  intros [->|H]; [lia|]. specialize (IH H). lia.
Qed.

(** X14.  The columns of the listing line up: every line has a label
    field of the width of the longest label, and, when the longest gene
    of the flagged targets has at least the three characters of the
    ditto mark, a gene field of the width of the longest gene. *)
Theorem warn_bad_probes_aligned :
  forall (mn mx mr : float) (row2label : probe -> string) (probes : CNA),
    has_key "spread" probes = true ->
    let bad := bad_targets mn mx mr probes in
    let gene_cols := max_len (map gene bad) in
    let chrom_cols := max_len (map row2label bad) in
    exists w,
      warn_bad_probes mn mx mr row2label probes = Ok w
      /\ forall t l,
           targets w = Some t -> In l (fg_lines t) ->
           String.length (line_label l) = chrom_cols
           /\ (3 <= gene_cols -> String.length (line_gene l) = gene_cols).
Proof.
  intros mn mx mr row2label probes Hs bad gene_cols chrom_cols.
  change (has_spread probes = true) in Hs.
  eexists. split; [now apply warn_bad_probes_closed|].
  cbn [targets]. fold bad. intros t l Ht Hl.
  destruct (Nat.ltb 0 (List.length bad)); [|discriminate].
  injection Ht as <-. cbn [fg_lines] in Hl.
  apply In_nth_error in Hl. destruct Hl as [i Hi].
  assert (Hlt : i < List.length bad).
  { rewrite <- (combine_labels_length row2label bad).
    rewrite <- (listing_length (has_rmask probes) (max_len (map gene bad))
                  (max_len (map row2label bad)) None).
    apply nth_error_Some. congruence. }
  destruct (nth_error bad i) as [p|] eqn:Hp;
    [|apply nth_error_None in Hp; lia].
  rewrite (listing_nth _ _ _ row2label bad None i p Hp) in Hi.
  injection Hi as <-. cbn [line_label line_gene].
  rewrite !ljust_length.
  assert (Hin : In p bad) by (eapply nth_error_In; eassumption).
  pose proof (max_len_bound (row2label p) (map row2label bad)
                (in_map row2label bad p Hin)) as Hlabel.
  pose proof (max_len_bound (gene p) (map gene bad)
                (in_map gene bad p Hin)) as Hgene.
  fold gene_cols chrom_cols in Hlabel, Hgene |- *.
  split; [lia|]. intros H3.
  assert (Hditto : String.length ditto = 3) by reflexivity.
  destruct i as [|j]; [lia|].
  destruct (option_map gene (nth_error bad j)) as [g|]; [|lia].
  destruct (String.eqb (gene p) g); lia.
Qed.

Lemma warn_bad_probes_aligned_witness :
  has_key "spread" Examples.reference = true
  /\ exists w,
       warn_bad_probes Examples.min_coverage Examples.max_spread
         Examples.max_repeat Examples.row2label Examples.reference = Ok w
       /\ forall t l,
            targets w = Some t -> In l (fg_lines t) ->
            String.length (line_label l) = 4.
Proof.
  split; [reflexivity|].
  destruct (warn_bad_probes_aligned Examples.min_coverage Examples.max_spread
              Examples.max_repeat Examples.row2label Examples.reference
              eq_refl) as (w & Hw & Ht).
  exists w. split; [exact Hw|]. intros t l E Hl.
  exact (proj1 (Ht t l E Hl)).
Defined.

(** A target named with one letter, flagged twice: the ditto mark is
    wider than the gene column. *)
Example warn_bad_probes_short_gene :
  exists t,
    warn_bad_probes Examples.min_coverage Examples.max_spread
      Examples.max_repeat Examples.row2label
      (mkCNA "short" false false true
         [mkProbe "chr1" 0 10 "A" fm1 f0 f0 (Examples.dec 2 1);
          mkProbe "chr1" 10 20 "A" fm1 f0 f0 (Examples.dec 2 1)])
    = Ok (mkWarning (Some t) None)
    /\ map (fun l => String.length (line_gene l)) (fg_lines t) = [1; 3].
Proof. eexists. split; [cbv; reflexivity | reflexivity]. Qed.

(** ** The flat reference, continued *)

Lemma map_all_false {A} (f : A -> bool) (l : list A) :
  (forall x, In x l -> f x = false) ->
  map f l = repeat false (List.length l).
Proof.
  induction l as [|x l IH]; intros H; [reflexivity|].
  cbn [map List.length repeat]. rewrite (H x) by now left.
  f_equal. apply IH. intros y Hy. apply H. now right.
Qed.

Lemma filter_none {A} (f g : A -> bool) (l : list A) :
  (forall x, In x l -> f x = false) ->
  filter (fun x => f x && g x) l = [].
Proof.
  induction l as [|x l IH]; intros H; [reflexivity|].
  cbn [filter]. rewrite (H x) by now left. cbn [andb].
  apply IH. intros y Hy. apply H. now right.
Qed.

(** X15.  With thresholds that accept a neutral probe (the minimal
    coverage is not above 0; the maximal spread and the maximal repeat
    fraction are not below 0), no probe of a flat reference is flagged,
    and the report on a flat reference is empty. *)
Theorem bed2probes_passes_filter :
  forall (parse_regions : string -> list (string * Z * Z * string))
         (fbase : string -> string) (bed_fname : string)
         (mn mx mr : float) (row2label : probe -> string),
    (f0 <? mn)%fl = false -> (f0 >? mx)%fl = false ->
    (f0 >? mr)%fl = false ->
    let flat := bed2probes parse_regions fbase bed_fname in
    mask_bad_probes mn mx mr flat = Ok (repeat false (len flat))
    /\ warn_bad_probes mn mx mr row2label flat = Ok (mkWarning None None).
Proof.
  intros parse_regions fbase bed_fname mn mx mr row2label Hmn Hmx Hmr flat.
  assert (Hs : has_spread flat = true) by reflexivity.
  assert (Hrows : data flat = map flat_row (parse_regions bed_fname))
    by apply bed2probes_rows.
  assert (Hgood : forall p, In p (data flat) ->
                    is_bad mn mx mr (has_rmask flat) p = false).
  { intros p Hp. rewrite Hrows in Hp. apply in_map_iff in Hp.
    destruct Hp as ([[[chrom s] e] name] & <- & _).
    unfold is_bad. cbn [flat_row coverage spread rmask].
    now rewrite Hmn, Hmx, Hmr, andb_false_r. }
  split.
  - rewrite (mask_bad_probes_is_bad mn mx mr flat Hs). unfold Ok. f_equal.
    now apply map_all_false.
  - rewrite (warn_bad_probes_closed mn mx mr row2label flat Hs).
    unfold bad_targets, bad_antitargets.
    rewrite !filter_none by exact Hgood.
    reflexivity.
Qed.

Lemma bed2probes_passes_filter_witness :
  (f0 <? Examples.min_coverage)%fl = false
  /\ (f0 >? Examples.max_spread)%fl = false
  /\ (f0 >? Examples.max_repeat)%fl = false
  /\ warn_bad_probes Examples.min_coverage Examples.max_spread
       Examples.max_repeat Examples.row2label
       (bed2probes (fun _ => Examples.two_regions) (fun name => name)
          "targets.bed")
     = Ok (mkWarning None None).
Proof.
  split; [reflexivity|]. split; [reflexivity|]. split; [reflexivity|].
  apply (bed2probes_passes_filter (fun _ => Examples.two_regions)
           (fun name => name) "targets.bed" Examples.min_coverage
           Examples.max_spread Examples.max_repeat Examples.row2label);
    reflexivity.
Defined.

(** ** Pooling the samples, continued *)

Section CombineMore.

Variable read : string -> CNA.
Variable guess_chr_x : CNA -> string.
Variable guess_xx : CNA -> string -> bool.
Variables biweight_location biweight_midvariance : list float -> float.

(** The arguments that [combine_probes] gives to the constructor. *)
Lemma combine_probes_closed first rest has_genome is_male_normal :
  (forall fname, In fname rest -> same_grid (read first) (read fname)) ->
  let chr_x := guess_chr_x (read first) in
  let shift := shift_sex_chroms guess_xx is_male_normal chr_x (chr_y_of chr_x) in
  let cnarr1 := shift (read first) in
  let rows := map (fun f => col coverage (shift (read f))) (first :: rest) in
  combine_probes read guess_chr_x guess_xx biweight_location
    biweight_midvariance (first :: rest) has_genome is_male_normal
  = Ok (new_CNA "reference" (col chromosome cnarr1) (col start cnarr1)
          (col end_ cnarr1) (col gene cnarr1)
          (apply_along_axis0 biweight_location rows)
          (Some (apply_along_axis0 biweight_midvariance rows))
          (if has_key "gc" cnarr1 then Some (col gc cnarr1)
           else if has_genome then Some (zeros (len cnarr1)) else None)
          (if has_genome then Some (zeros (len cnarr1)) else None))
  /\ Forall (fun r => List.length r = len (read first)) rows.
Proof.
  intros Hall chr_x shift cnarr1 rows.
  pose proof (load_coverages_result read guess_chr_x guess_xx first rest
                is_male_normal) as H.
  assert (Hrows : Forall (fun r => List.length r = len (read first)) rows).
  { apply Forall_forall. intros r Hr. apply in_map_iff in Hr.
    destruct Hr as (f & <- & Hf). unfold col. rewrite length_map.
    fold (len (shift (read f))). unfold shift.
    rewrite shift_sex_chroms_len.
    destruct Hf as [<-|Hf]; [reflexivity | symmetry; apply (Hall f Hf)]. }
  split; [|exact Hrows].
  unfold combine_probes.
  destruct (load_coverages read guess_chr_x guess_xx (first :: rest)
              is_male_normal) as [e|[c rows']].
  - destruct H as (before & bad & after & -> & _ & Hbad & _).
    exfalso. apply Hbad, Hall. apply in_or_app; right; left; reflexivity.
  - cbn [fst snd] in H. destruct H as (-> & -> & _).
    cbn [bind Monad_result Monad_either ret fst snd].
    change (vstack _) with (vstack rows).
    rewrite (vstack_rectangular rows (len (read first)));
      [|discriminate | exact Hrows].
    reflexivity.
Qed.

(** The loop stops at the first file off the grid. *)
Lemma load_samples_first_bad cnarr1 first shift before bad after acc :
  Forall (fun f => same_grid cnarr1 (read f)) before ->
  ~ same_grid cnarr1 (read bad) ->
  load_samples read cnarr1 first shift (before ++ bad :: after) acc
  = Raise (RuntimeError bad first).
Proof.
  intros Hgood Hbad. revert acc.
  induction Hgood as [|f before Hf _ IH]; intros acc; cbn [app load_samples].
  - destruct (same_probes cnarr1 (read bad)) eqn:E; [|reflexivity].
    apply same_probes_grid in E. contradiction.
  - apply same_probes_grid in Hf. rewrite Hf. cbn [negb]. apply IH.
Qed.

End CombineMore.

(** X16.  The build stops at the first sample that is off the grid of
    the first sample and names that one, whatever comes after it: later
    files are not compared. *)
Theorem combine_probes_first_mismatch :
  forall (read : string -> CNA) (guess_chr_x : CNA -> string)
         (guess_xx : CNA -> string -> bool)
         (biweight_location biweight_midvariance : list float -> float)
         (first bad : string) (before after : list string)
         (has_genome is_male_normal : bool),
    (forall fname, In fname before -> same_grid (read first) (read fname)) ->
    ~ same_grid (read first) (read bad) ->
    combine_probes read guess_chr_x guess_xx biweight_location
      biweight_midvariance (first :: before ++ bad :: after) has_genome
      is_male_normal
    = Raise (RuntimeError bad first).
Proof.
  intros read guess_chr_x guess_xx loc mid first bad before after hg imn
         Hgood Hbad.
  unfold combine_probes, load_coverages.
  rewrite load_samples_first_bad; [reflexivity| |].
  - apply Forall_forall. intros f Hf. apply same_grid_shift. now apply Hgood.
  - rewrite same_grid_shift. exact Hbad.
Qed.

Lemma combine_probes_first_mismatch_witness :
  (forall fname, In fname ["male.cnn"] ->
     same_grid (Examples.read "female.cnn") (Examples.read fname))
  /\ ~ same_grid (Examples.read "female.cnn") (Examples.read "shifted.cnn")
  /\ combine_probes Examples.read Examples.guess_chr_x Examples.guess_xx
       (fun _ => f0) (fun _ => f0)
       ("female.cnn" :: ["male.cnn"] ++ "shifted.cnn" :: ["other.cnn"])
       true true
     = Raise (RuntimeError "shifted.cnn" "female.cnn").
Proof.
  assert (H1 : forall fname, In fname ["male.cnn"] ->
                 same_grid (Examples.read "female.cnn") (Examples.read fname))
    by (intros fname [<-|[]]; repeat split).
  assert (H2 : ~ same_grid (Examples.read "female.cnn")
                   (Examples.read "shifted.cnn"))
    by (intros (_ & _ & H & _); discriminate).
  split; [exact H1|]. split; [exact H2|].
  apply (combine_probes_first_mismatch Examples.read Examples.guess_chr_x
           Examples.guess_xx (fun _ => f0) (fun _ => f0)
           "female.cnn" "shifted.cnn" ["male.cnn"] ["other.cnn"] true true
           H1 H2).
Defined.

(** X17.  Whenever the loop over the files completes, the rows handed
    to [numpy.vstack] are the normalised coverages of the files, one row
    for every file in the order of the files, each as long as the first
    sample: the stacking does not fail and the matrix has a row for
    every sample and a column for every probe. *)
Theorem combine_probes_matrix_shape :
  forall (read : string -> CNA) (guess_chr_x : CNA -> string)
         (guess_xx : CNA -> string -> bool)
         (first : string) (rest : list string) (is_male_normal : bool)
         (cnarr1 : CNA) (all_coverages : list (list float)),
    load_coverages read guess_chr_x guess_xx (first :: rest) is_male_normal
    = Ok (cnarr1, all_coverages) ->
    let chr_x := guess_chr_x (read first) in
    let shift :=
      shift_sex_chroms guess_xx is_male_normal chr_x (chr_y_of chr_x) in
    all_coverages
    = map (fun fname => col coverage (shift (read fname))) (first :: rest)
    /\ List.length all_coverages = S (List.length rest)
    /\ Forall (fun row => List.length row = len (read first)) all_coverages
    /\ vstack all_coverages = Ok all_coverages.
Proof.
  intros read guess_chr_x guess_xx first rest imn cnarr1 rows E chr_x shift.
  pose proof (load_coverages_result read guess_chr_x guess_xx first rest imn)
    as H.
  unfold Ok in E. rewrite E in H. cbv beta iota in H. cbn [fst snd] in H.
  destruct H as (_ & Hrows & Hall).
  fold chr_x shift in Hrows.
  assert (Hlen : Forall (fun row => List.length row = len (read first)) rows).
  { rewrite Hrows. apply Forall_forall. intros r Hr. apply in_map_iff in Hr.
    destruct Hr as (f & <- & Hf). unfold col. rewrite length_map.
    fold (len (shift (read f))). unfold shift.
    rewrite shift_sex_chroms_len. rewrite Forall_forall in Hall.
    destruct Hf as [<-|Hf]; [reflexivity | symmetry; apply (Hall f Hf)]. }
  split; [exact Hrows|].
  split; [rewrite Hrows; cbn [map List.length]; now rewrite length_map|].
  split; [exact Hlen|].
  apply (vstack_rectangular rows (len (read first)));
    [rewrite Hrows; discriminate | exact Hlen].
Qed.

Lemma combine_probes_matrix_shape_witness :
  exists cnarr1 all_coverages,
    load_coverages Examples.read Examples.guess_chr_x Examples.guess_xx
      ["female.cnn"; "male.cnn"] true = Ok (cnarr1, all_coverages)
    /\ List.length all_coverages = 2
    /\ vstack all_coverages = Ok all_coverages.
Proof.
  eexists. eexists. split; [reflexivity|].
  destruct (combine_probes_matrix_shape Examples.read Examples.guess_chr_x
              Examples.guess_xx "female.cnn" ["male.cnn"] true _ _ eq_refl)
    as (_ & Hn & _ & Hv).
  split; [exact Hn | exact Hv].
Defined.

Lemma new_CNA_extra_columns id chromosomes starts ends genes coverages
    (kws kwg kwr : option (list float)) :
  let ref := new_CNA id chromosomes starts ends genes coverages kws kwg kwr in
  let present (kw : option (list float)) :=
    match kw with Some _ => true | None => false end in
  let filled (kw : option (list float)) (column : list float) :=
    forall values, kw = Some values ->
                   List.length values = List.length chromosomes ->
                   column = values in
  has_key "spread" ref = present kws
  /\ has_key "gc" ref = present kwg
  /\ has_key "rmask" ref = present kwr
  /\ filled kws (col spread ref)
  /\ filled kwg (col gc ref)
  /\ filled kwr (col rmask ref).
Proof.
  intros ref present filled.
  repeat split; intros values -> Hlen; unfold ref, new_CNA, col;
    cbn [data]; rewrite map_map; cbn [spread gc rmask];
    now apply map_nth_seq_same.
Qed.

(** X18.  The reference of a sample-driven build always has a spread
    column.  It has an rmask column exactly when [has_genome] is set,
    and that column is zero on every probe: the rmask values of the
    samples are not taken over.  It has a gc column exactly when the
    first sample has one or [has_genome] is set; the gc values of the
    first sample are taken over unchanged when it has them, also when
    [has_genome] is set, and the column is zero otherwise. *)
Theorem combine_probes_columns :
  forall (read : string -> CNA) (guess_chr_x : CNA -> string)
         (guess_xx : CNA -> string -> bool)
         (biweight_location biweight_midvariance : list float -> float)
         (first : string) (rest : list string)
         (has_genome is_male_normal : bool),
    (forall fname, In fname rest -> same_grid (read first) (read fname)) ->
    exists ref,
      combine_probes read guess_chr_x guess_xx biweight_location
        biweight_midvariance (first :: rest) has_genome is_male_normal
      = Ok ref
      /\ has_key "spread" ref = true
      /\ has_key "rmask" ref = has_genome
      /\ has_key "gc" ref = (has_key "gc" (read first) || has_genome)
      /\ (has_genome = true -> col rmask ref = zeros (len (read first)))
      /\ (has_key "gc" (read first) = true ->
          col gc ref = col gc (read first))
      /\ (has_key "gc" (read first) = false -> has_genome = true ->
          col gc ref = zeros (len (read first))).
Proof.
  intros read guess_chr_x guess_xx loc mid first rest hg imn Hall.
  destruct (combine_probes_closed read guess_chr_x guess_xx loc mid first rest
              hg imn Hall) as [Hok _].
  cbv zeta in Hok.
  set (chr_x := guess_chr_x (read first)) in *.
  set (shift := shift_sex_chroms guess_xx imn chr_x (chr_y_of chr_x)) in *.
  assert (Hlen : len (shift (read first)) = len (read first))
    by apply shift_sex_chroms_len.
  assert (Hgc : col gc (shift (read first)) = col gc (read first))
    by (apply shift_sex_chroms_col; reflexivity).
  assert (Hkey : has_key "gc" (shift (read first))
                 = has_key "gc" (read first))
    by apply shift_sex_chroms_has_key.
  rewrite Hlen, Hgc, Hkey in Hok.
  eexists. split; [exact Hok|].
  match goal with
  | |- context [new_CNA ?id ?c ?s ?e ?g ?v ?ks ?kg ?kr] =>
      destruct (new_CNA_extra_columns id c s e g v ks kg kr)
        as (Hs & Hg & Hr & _ & Fg & Fr)
  end.
  assert (Hn : List.length (col chromosome (shift (read first)))
               = len (read first))
    by (unfold col; rewrite length_map; exact Hlen).
  rewrite Hs, Hg, Hr.
  split; [reflexivity|].
  split; [now destruct hg|].
  split; [now destruct (has_key "gc" (read first)), hg|].
  split; [|split].
  - intros ->. apply Fr; [reflexivity|].
    unfold zeros. now rewrite repeat_length.
  - intros E. apply Fg; [now rewrite E|].
    unfold col at 1. rewrite length_map. symmetry. exact Hn.
  - intros E ->. apply Fg; [now rewrite E|].
    unfold zeros. now rewrite repeat_length.
Qed.

Lemma combine_probes_columns_witness :
  (forall fname, In fname ["male.cnn"] ->
     same_grid (Examples.read "female.cnn") (Examples.read fname))
  /\ exists ref,
       combine_probes Examples.read Examples.guess_chr_x Examples.guess_xx
         (fun _ => f0) (fun _ => f0) ["female.cnn"; "male.cnn"] true false
       = Ok ref
       /\ has_key "spread" ref = true
       /\ has_key "rmask" ref = true.
Proof.
  assert (H : forall fname, In fname ["male.cnn"] ->
                same_grid (Examples.read "female.cnn") (Examples.read fname))
    by (intros fname [<-|[]]; repeat split).
  split; [exact H|].
  destruct (combine_probes_columns Examples.read Examples.guess_chr_x
              Examples.guess_xx (fun _ => f0) (fun _ => f0)
              "female.cnn" ["male.cnn"] true false H)
    as (ref & Hok & Hs & Hr & _).
  exists ref. repeat split; assumption.
Defined.

Lemma new_CNA_core_columns id chromosomes starts ends genes coverages
    kws kwg kwr kws' kwg' kwr' :
  let ref := new_CNA id chromosomes starts ends genes coverages kws kwg kwr in
  let ref' :=
    new_CNA id chromosomes starts ends genes coverages kws' kwg' kwr' in
  sample_id ref = sample_id ref'
  /\ _cna2regions ref = _cna2regions ref'
  /\ col coverage ref = col coverage ref'.
Proof.
  intros ref ref'. rewrite !_cna2regions_rows.
  unfold ref, ref', new_CNA, col; cbn [data sample_id].
  rewrite !map_map. repeat split.
Qed.

(** X19.  [has_genome] only reserves columns: with and without it the
    build fails in the same way or returns references with the same
    sample id, the same regions, the same coverage and the same
    spread. *)
Theorem combine_probes_has_genome :
  forall (read : string -> CNA) (guess_chr_x : CNA -> string)
         (guess_xx : CNA -> string -> bool)
         (biweight_location biweight_midvariance : list float -> float)
         (filenames : list string) (is_male_normal : bool),
    match
      combine_probes read guess_chr_x guess_xx biweight_location
        biweight_midvariance filenames true is_male_normal,
      combine_probes read guess_chr_x guess_xx biweight_location
        biweight_midvariance filenames false is_male_normal
    with
    | inl e, inl e' => e = e'
    | inr ref, inr ref' =>
        sample_id ref = sample_id ref'
        /\ _cna2regions ref = _cna2regions ref'
        /\ col coverage ref = col coverage ref'
        /\ getitem "spread" ref = getitem "spread" ref'
    | _, _ => False
    end.
Proof.
  intros read guess_chr_x guess_xx loc mid filenames imn.
  unfold combine_probes.
  destruct (load_coverages read guess_chr_x guess_xx filenames imn)
    as [e|[cnarr1 rows]]; cbn [bind Monad_result Monad_either ret fst snd];
    [reflexivity|].
  destruct (vstack rows) as [e|matrix];
    cbn [bind Monad_result Monad_either ret]; [reflexivity|].
  match goal with
  | |- sample_id (new_CNA ?id ?c ?s ?e ?g ?v ?ks ?kg ?kr)
       = sample_id (new_CNA _ _ _ _ _ _ ?ks' ?kg' ?kr') /\ _ =>
      destruct (new_CNA_core_columns id c s e g v ks kg kr ks' kg' kr')
        as (Hid & Hreg & Hcov)
  end.
  split; [exact Hid|]. split; [exact Hreg|]. split; [exact Hcov|].
  unfold getitem, has_key, new_CNA, col; cbn. rewrite !map_map. reflexivity.
Qed.
